(** * ZIP CSV Processor: a shallow embedding of [streamlit_app.py]

    The development follows the three functions of the script:
    [process_zip_file], [get_download_link] and [main].  Calls into the
    Streamlit widgets are recorded as a trace of user-interface events, the
    accesses to the archive as a trace of member names, and Python
    exceptions as the error branch of a small state-and-error monad.
    The parsing and the serialization of tables, which the script leaves
    to [pandas], are treated apart, after the specification's sections.

    Python [str] values are modelled by [string]; its characters stand for
    the code points 0..255.  The byte content of an archive member is a
    [list byte]. *)

From Stdlib Require Import ZArith NArith Ascii String List DecimalString DecimalZ DecimalPos Strings.Byte Lia.
From stdpp Require Import gmap strings list.
Import ListNotations.
Local Open Scope string_scope.
Local Open Scope list_scope.

(** ** Strings: [str.lower], [str.endswith], [str(n)], [f"{n:,}"] *)

Module PyStr.

(** [str.lower] on one code point below 256: the ASCII capitals and the
    Latin-1 capitals (all of 192..222 but the multiplication sign 215)
    move up by 32, every other character is kept. *)
Definition lower_char (c : ascii) : ascii :=
  let n := nat_of_ascii c in
  if (((65 <=? n) && (n <=? 90))
      || ((192 <=? n) && (n <=? 222) && negb (n =? 215)))%nat
  then ascii_of_nat (n + 32)
  else c.

Fixpoint lower (s : string) : string :=
  match s with
  | EmptyString => EmptyString
  | String c s' => String (lower_char c) (lower s')
  end.

(** [s.endswith(suffix)]: the last [len(suffix)] characters of [s] are
    [suffix]. *)
Definition endswith (s suffix : string) : bool :=
  let n := String.length s in
  let k := String.length suffix in
  (k <=? n)%nat && String.eqb (substring (n - k) k s) suffix.

(** [str(n)] for a non-negative integer. *)
Definition str_of_N (n : N) : string :=
  NilEmpty.string_of_uint (N.to_uint n).

(** [s.zfill(width)]-style left padding with the digit zero. *)
Fixpoint zeros (k : nat) : string :=
  match k with
  | O => EmptyString
  | S k' => String "0" (zeros k')
  end.

Definition zfill (width : nat) (s : string) : string :=
  zeros (width - String.length s) +:+ s.

(** The format specification [","]: the decimal digits in groups of
    three, counted from the right and separated by commas. *)
Fixpoint group3 (digits : list ascii) (room : nat) : list ascii :=
  match digits with
  | [] => []
  | d :: rest =>
      match room with
      | O => "," %char :: d :: group3 rest 2
      | S room' => d :: group3 rest room'
      end
  end.

Definition format_thousands (n : N) : string :=
  string_of_list_ascii
    (rev (group3 (rev (list_ascii_of_string (str_of_N n))) 3)).

End PyStr.

(** ** Dictionaries with string keys and values

    A [dict] in insertion order.  All the dictionaries of the script have
    pairwise distinct keys, so [dict_get] may stop at the first hit. *)

Abbreviation dict := (list (string * string)).

Fixpoint dict_get (d : dict) (k : string) : option string :=
  match d with
  | [] => None
  | (k', v) :: d' => if String.eqb k k' then Some v else dict_get d' k
  end.

Definition dict_keys (d : dict) : list string := map fst d.

(** ** Data frames

    A frame is its column labels and its rows, each row holding the cells
    by column position.  The cell type is left to the parser. *)

Record DataFrame (cell : Type) : Type := mkDataFrame {
  columns : list string;
  data : list (list cell)
}.
Arguments mkDataFrame {cell} _ _.
Arguments columns {cell} _.
Arguments data {cell} _.

(** [len(df)] and [len(df.columns)] *)
Definition df_len {cell} (df : DataFrame cell) : N :=
  N.of_nat (length (data df)).

Definition columns_len {cell} (df : DataFrame cell) : N :=
  N.of_nat (length (columns df)).

(** [df.head()], the first five rows *)
Definition df_head {cell} (df : DataFrame cell) : DataFrame cell :=
  mkDataFrame (columns df) (take 5 (data df)).

(** [df.rename(columns=mapper)]: every label [c] becomes
    [mapper.get(c, c)]; the cells are not touched. *)
Definition df_rename {cell} (df : DataFrame cell) (mapper : dict)
  : DataFrame cell :=
  mkDataFrame
    (map (fun c => default c (dict_get mapper c)) (columns df))
    (data df).

(** ** The header rewriter (lines 52-70 of the script) *)

Definition column_mapping : dict :=
  [ ("Campaign Id", "Campaign__Campaign_Id");
    ("Campaign Name", "campaign__name");
    ("Entered", "campaign__campaign_start_date");
    ("Sent Date", "Date__date");
    ("Published", "Contacted_Customers");
    ("Sent", "Msg_Sent");
    ("Delivered", "Msg_Delivered");
    ("Unique Opened", "Unique_Open_Count");
    ("Unique Opened %", "Unique_Click_Count") ].

(** [{old: new for old, new in column_mapping.items() if old in df.columns}] *)
Definition rename_dict (df_columns : list string) : dict :=
  filter (fun kv => kv.1 ∈ df_columns) column_mapping.

(** Lines 69-70 together: build [rename_dict] from the frame's own labels
    and rename with it. *)
Definition rename_headers {cell} (df : DataFrame cell) : DataFrame cell :=
  df_rename df (rename_dict (columns df)).

(** The rename table as the specification prints it, row by row. *)
Definition RenameMap_spec : list (string * string) :=
  [ ("Campaign Id", "Campaign__Campaign_Id");
    ("Campaign Name", "campaign__name");
    ("Entered", "campaign__campaign_start_date");
    ("Sent Date", "Date__date");
    ("Published", "Contacted_Customers");
    ("Sent", "Msg_Sent");
    ("Delivered", "Msg_Delivered");
    ("Unique Opened", "Unique_Open_Count");
    ("Unique Opened %", "Unique_Click_Count") ].

(** ** Entry selection (lines 32-42) *)

(** The extension in every mix of capitals and small letters. *)
Definition csv_suffixes : list string :=
  [".csv"; ".csV"; ".cSv"; ".cSV"; ".Csv"; ".CsV"; ".CSv"; ".CSV"].

Definition is_csv (f : string) : bool :=
  PyStr.endswith (PyStr.lower f) ".csv".

(** [[f for f in file_list if f.lower().endswith('.csv')]] *)
Definition csv_files (file_list : list string) : list string :=
  filter (fun f => is_csv f = true) file_list.

(** ** Time stamps (lines 76-77) *)

Record datetime : Type := mkDatetime {
  year : N; month : N; day : N;
  hour : N; minute : N; second : N
}.

(** One [strftime] directive.  The script uses [%Y %m %d %H %M %S]; [%%]
    is the literal percent sign and an unknown directive is copied. *)
Definition strftime_directive (t : datetime) (d : ascii) : string :=
  if Ascii.eqb d "Y" then PyStr.zfill 4 (PyStr.str_of_N (year t))
  else if Ascii.eqb d "m" then PyStr.zfill 2 (PyStr.str_of_N (month t))
  else if Ascii.eqb d "d" then PyStr.zfill 2 (PyStr.str_of_N (day t))
  else if Ascii.eqb d "H" then PyStr.zfill 2 (PyStr.str_of_N (hour t))
  else if Ascii.eqb d "M" then PyStr.zfill 2 (PyStr.str_of_N (minute t))
  else if Ascii.eqb d "S" then PyStr.zfill 2 (PyStr.str_of_N (second t))
  else if Ascii.eqb d "%" then "%"
  else String "%" (String d EmptyString).

Fixpoint strftime (t : datetime) (fmt : string) : string :=
  match fmt with
  | EmptyString => EmptyString
  | String c rest =>
      if Ascii.eqb c "%" then
        match rest with
        | EmptyString => "%"
        | String d rest' => strftime_directive t d +:+ strftime t rest'
        end
      else String c (strftime t rest)
  end.

(** [f"processed_{timestamp}.csv"] *)
Definition output_filename (now : datetime) : string :=
  let timestamp := strftime now "%Y%m%d_%H%M%S" in
  "processed_" +:+ timestamp +:+ ".csv".

(** Two and four decimal digits, most significant first: the fields
    [YYYY], [MM], [DD], [HH], [MM], [SS] of the specified file name. *)
Definition digit (n : N) : ascii := ascii_of_N (48 + n mod 10).

Definition two_digits (n : N) : string :=
  String (digit (n / 10)) (String (digit n) EmptyString).

Definition four_digits (n : N) : string :=
  String (digit (n / 1000)) (String (digit (n / 100)) (two_digits n)).

(** The file name as the specification writes it:
    [processed_<YYYYMMDD_HHMMSS>.csv]. *)
Definition filename_spec (t : datetime) : string :=
  "processed_" +:+ four_digits (year t) +:+ two_digits (month t)
    +:+ two_digits (day t) +:+ "_" +:+ two_digits (hour t)
    +:+ two_digits (minute t) +:+ two_digits (second t) +:+ ".csv".

(** A time of day and a calendar date the clock can return, with a year of
    four digits. *)
Definition valid_datetime (t : datetime) : Prop :=
  (1000 <= year t <= 9999 /\ 1 <= month t <= 12 /\ 1 <= day t <= 31 /\
   hour t <= 23 /\ minute t <= 59 /\ second t <= 59)%N.


(** ** The libraries the script calls

    [zipfile], [pandas] and [base64] are not part of the repository.
    What the script needs of [zipfile] and [base64] is written out after
    the library's own code; opening an archive and the two [pandas] calls
    are an interface: what each call returns, and [None] where the call
    raises. *)

(** One entry of an archive's directory, a [ZipInfo]: its name and what
    reading it gives, [None] when the entry cannot be read (a bad
    checksum, a password, a compression the library does not have). *)
Record ZipInfo : Type := mkZipInfo {
  filename : string;
  file_data : option (list byte)
}.

(** An opened [zipfile.ZipFile]: its [filelist], the entries in the order
    of the archive's directory.  Names may repeat. *)
Record ZipFile : Type := mkZipFile {
  filelist : list ZipInfo
}.

(** [namelist()]: the name of every entry, in directory order. *)
Definition namelist (z : ZipFile) : list string :=
  map filename (filelist z).

(** The library's [NameToInfo] dictionary: while the directory is read,
    each entry is stored under its name, so that an entry replaces an
    earlier one of the same name. *)
Definition name_to_info (entries : list ZipInfo) : gmap string ZipInfo :=
  foldl (fun m x => <[filename x := x]> m) ∅ entries.

(** [getinfo(name)] *)
Definition getinfo (z : ZipFile) (name : string) : option ZipInfo :=
  name_to_info (filelist z) !! name.

(** [read(name)]: the data of the entry that [getinfo] finds; [None]
    when there is no such entry or it cannot be read. *)
Definition zip_read (z : ZipFile) (name : string) : option (list byte) :=
  match getinfo z name with
  | Some info => file_data info
  | None => None
  end.
Arguments namelist : simpl never.
Arguments zip_read : simpl never.

(** [str.encode()], UTF-8: a code point below 128 is one byte, a code
    point from 128 to 255 is two. *)
Definition utf8_encode_char (c : ascii) : list byte :=
  let n := N_of_ascii c in
  if (n <? 128)%N then [byte_of_ascii c]
  else [ byte_of_ascii (ascii_of_N (192 + n / 64));
         byte_of_ascii (ascii_of_N (128 + n mod 64)) ].

Fixpoint utf8_encode (s : string) : list byte :=
  match s with
  | EmptyString => []
  | String c s' => utf8_encode_char c ++ utf8_encode s'
  end.

(** [base64.b64encode(b)]: three bytes give four digits of the alphabet;
    a last group of one or two bytes is filled up with [=]. *)
Definition b64_alphabet : string :=
  "ABCDEFGHIJKLMNOPQRSTUVWXYZabcdefghijklmnopqrstuvwxyz0123456789+/".

Definition b64_digit (i : N) : ascii :=
  match String.get (N.to_nat i) b64_alphabet with
  | Some c => c
  | None => "="%char
  end.

Fixpoint b64_groups (bs : list N) : list ascii :=
  match bs with
  | [] => []
  | [a] =>
      [ b64_digit (a / 4); b64_digit (a mod 4 * 16); "="%char; "="%char ]
  | [a; b] =>
      [ b64_digit (a / 4); b64_digit (a mod 4 * 16 + b / 16);
        b64_digit (b mod 16 * 4); "="%char ]
  | a :: b :: c :: rest =>
      b64_digit (a / 4) :: b64_digit (a mod 4 * 16 + b / 16)
        :: b64_digit (b mod 16 * 4 + c / 64) :: b64_digit (c mod 64)
        :: b64_groups rest
  end%N.

Definition b64encode (b : list byte) : list byte :=
  map byte_of_ascii (b64_groups (map Byte.to_N b)).

Class Library : Type := {
  cell : Type;
  (** [zipfile.ZipFile(io.BytesIO(b), 'r')] *)
  zip_open : list byte -> option ZipFile;
  (** [pd.read_csv(io.BytesIO(b))] *)
  pd_read_csv : list byte -> option (DataFrame cell);
  (** [df.to_csv(index=False)] *)
  df_to_csv : DataFrame cell -> string
}.

Section Pipeline.
Context {L : Library}.

(** *** Effects: the page and the archive *)

Inductive ui_event : Type :=
| st_title (body : string)
| st_write (body : string)
| st_write_list (label : string) (items : list string)
| st_success (body : string)
| st_error (body : string)
| st_info (body : string)
| st_spinner (text : string)
| st_subheader (body : string)
| st_dataframe (df : DataFrame cell)
| st_markdown (body : string) (unsafe_allow_html : bool)
| st_columns (n : nat)
| st_metric (label value : string).

Inductive exn : Type :=
| BadZipFile
| ZipReadError (member : string)
| ParserError
| NameError (name : string)
| TypeError.

(** What a run leaves behind: the events sent to the page, oldest first,
    and the members read from the archive, oldest first. *)
Record world : Type := mkWorld {
  ui : list ui_event;
  reads : list string
}.

Definition M (A : Type) : Type := world -> world * (exn + A).

#[export] Instance M_ret : MRet M := fun A x w => (w, inr x).

#[export] Instance M_bind : MBind M := fun A B f m w =>
  match m w with
  | (w', inl e) => (w', inl e)
  | (w', inr a) => f a w'
  end.

Definition raise {A} (e : exn) : M A := fun w => (w, inl e).

Definition emit (e : ui_event) : M unit :=
  fun w => (mkWorld (ui w ++ [e]) (reads w), inr tt).

(** [zip_ref.read(name)] *)
Definition read_member (z : ZipFile) (name : string) : M (list byte) :=
  fun w =>
    let w' := mkWorld (ui w) (reads w ++ [name]) in
    match zip_read z name with
    | Some content => (w', inr content)
    | None => (w', inl (ZipReadError name))
    end.

Definition lift_option {A} (e : exn) (o : option A) : M A :=
  match o with
  | Some a => mret a
  | None => raise e
  end.

(** *** [process_zip_file]

    The returned tuple is [(None, None, None)] or three values; it is
    [None] or [Some (df, csv_string, output_filename)] here.  The clock
    read by [datetime.now()] is the argument [now]. *)
Definition process_zip_file (uploaded_zip_file : list byte) (now : datetime)
  : M (option (DataFrame cell * string * string)) :=
  zip_ref ← lift_option BadZipFile (zip_open uploaded_zip_file);
  let file_list := namelist zip_ref in
  match csv_files file_list with
  | [] =>
      emit (st_error "No CSV files found in the ZIP archive");;
      mret None
  | csv_file :: _ =>
      emit (st_info ("Found CSV file: " +:+ csv_file));;
      csv_content ← read_member zip_ref csv_file;
      df ← lift_option ParserError (pd_read_csv csv_content);
      emit (st_write_list "Original columns:" (columns df));;
      let rename_dict := rename_dict (columns df) in
      let df := df_rename df rename_dict in
      emit (st_write_list "Renamed columns:" (columns df));;
      let output_filename := output_filename now in
      let csv_string := df_to_csv df in
      mret (Some (df, csv_string, output_filename))
  end.

(** *** [get_download_link] *)

(** The double quote, character 34. *)
Definition dquote : string := String "034" EmptyString.

Definition get_download_link (csv_string filename : string) : string :=
  let b64 := string_of_list_byte (b64encode (utf8_encode csv_string)) in
  "<a href=" +:+ dquote +:+ "data:file/csv;base64," +:+ b64 +:+ dquote
    +:+ " download=" +:+ dquote +:+ filename +:+ dquote
    +:+ ">Download Processed CSV</a>".

(** *** Name lookup in [main]

    A name read in a function body is looked up in the function's local
    variables, then in the module's globals, then among the builtins. *)
Inductive pyval : Type :=
| PyNone
| PyText (s : string)
| PyBytes (b : list byte)
| PyFrame (df : DataFrame cell)
| PyDict (d : dict)
| PyObject (kind : string).

Definition namespace : Type := list (string * pyval).

Fixpoint ns_get (ns : namespace) (x : string) : option pyval :=
  match ns with
  | [] => None
  | (y, v) :: ns' => if String.eqb x y then Some v else ns_get ns' x
  end.

(** The names bound at the top level of the script: the imports and the
    three functions. *)
Definition module_globals : namespace :=
  [ ("zipfile", PyObject "module"); ("pd", PyObject "module");
    ("os", PyObject "module"); ("io", PyObject "module");
    ("base64", PyObject "module"); ("st", PyObject "module");
    ("datetime", PyObject "class");
    ("process_zip_file", PyObject "function");
    ("get_download_link", PyObject "function");
    ("main", PyObject "function") ].

(** The builtins the script calls. *)
Definition builtins : namespace := [ ("len", PyObject "builtin") ].

Definition load_name (locals : namespace) (x : string) : M pyval :=
  match ns_get locals x with
  | Some v => mret v
  | None =>
      match ns_get module_globals x with
      | Some v => mret v
      | None =>
          match ns_get builtins x with
          | Some v => mret v
          | None => raise (NameError x)
          end
      end
  end.

(** [len(v)] *)
Definition py_len (v : pyval) : M N :=
  match v with
  | PyText s => mret (N.of_nat (String.length s))
  | PyBytes b => mret (N.of_nat (length b))
  | PyFrame df => mret (df_len df)
  | PyDict d => mret (N.of_nat (length d))
  | PyNone | PyObject _ => raise TypeError
  end.

(** *** [main]

    [uploaded_file] is what [st.file_uploader] returns and [button] what
    [st.button] returns in this run of the script. *)
Definition main (uploaded_file : option (list byte)) (button : bool)
    (now : datetime) : M unit :=
  emit (st_title "ZIP CSV Processor");;
  emit (st_write
    "Upload a ZIP file containing a CSV to process and rename the headers.");;
  match uploaded_file with
  | None => mret tt
  | Some uploaded =>
      emit (st_success "File uploaded successfully!");;
      if button then
        emit (st_spinner "Processing...");;
        r ← process_zip_file uploaded now;
        match r with
        | None => mret tt
        | Some (processed_df, csv_string, filename) =>
            emit (st_subheader "Preview of Processed Data");;
            emit (st_dataframe (df_head processed_df));;
            emit (st_subheader "Download Result");;
            emit (st_markdown (get_download_link csv_string filename) true);;
            emit (st_subheader "Data Statistics");;
            emit (st_write
              ("Total rows: " +:+ PyStr.str_of_N (df_len processed_df)));;
            emit (st_write
              ("Total columns: "
                 +:+ PyStr.str_of_N (columns_len processed_df)));;
            emit (st_columns 2);;
            emit (st_metric "Rows Processed"
              (PyStr.format_thousands (df_len processed_df)));;
            let locals : namespace :=
              [ ("uploaded_file", PyBytes uploaded);
                ("processed_df", PyFrame processed_df);
                ("csv_string", PyText csv_string);
                ("filename", PyText filename);
                ("col1", PyObject "column");
                ("col2", PyObject "column") ] in
            v ← load_name locals "rename_dict";
            n ← py_len v;
            emit (st_metric "Columns Renamed" (PyStr.str_of_N n))
        end
      else mret tt
  end.

(** The events of [main] up to the call of [process_zip_file]. *)
Definition main_prologue : list ui_event :=
  [ st_title "ZIP CSV Processor";
    st_write
      "Upload a ZIP file containing a CSV to process and rename the headers.";
    st_success "File uploaded successfully!";
    st_spinner "Processing..." ].

(** The events of [main] after a successful call, up to the point where
    line 124 is reached. *)
Definition main_report (df : DataFrame cell) (csv_string filename : string)
  : list ui_event :=
  [ st_subheader "Preview of Processed Data";
    st_dataframe (df_head df);
    st_subheader "Download Result";
    st_markdown (get_download_link csv_string filename) true;
    st_subheader "Data Statistics";
    st_write ("Total rows: " +:+ PyStr.str_of_N (df_len df));
    st_write ("Total columns: " +:+ PyStr.str_of_N (columns_len df));
    st_columns 2;
    st_metric "Rows Processed" (PyStr.format_thousands (df_len df)) ].

End Pipeline.

(** ** A small library instance for running the pipeline

    Upload [[x01]] opens an archive with three members, two of them CSV
    files; upload [[x02]] opens an archive without any; the empty upload
    is not an archive.  Cells are kept as text. *)

Definition sample_frame : DataFrame string :=
  mkDataFrame ["Campaign Id"; "Foo"; "Sent"]
    [ ["17"; "a"; "250"]; ["18"; "b"; "300"] ].

Definition sample_zip : ZipFile :=
  mkZipFile [ mkZipInfo "readme.txt" (Some [x72]);
              mkZipInfo "data/Report.CSV" (Some [x43]);
              mkZipInfo "other.csv" (Some [x6f]) ].

Definition sample_zip_no_csv : ZipFile :=
  mkZipFile [ mkZipInfo "readme.txt" (Some [x72]);
              mkZipInfo "notes.csv.bak" (Some [x6e]) ].

Definition sample_library : Library := {|
  cell := string;
  zip_open := fun b =>
    match b with
    | [x01] => Some sample_zip
    | [x02] => Some sample_zip_no_csv
    | _ => None
    end;
  pd_read_csv := fun b =>
    match b with
    | [x43] => Some sample_frame
    | _ => None
    end;
  df_to_csv := fun df => String.concat "," (columns df)
|}.

Definition sample_now : datetime := mkDatetime 2024 3 7 9 5 0.

Definition empty_world {L : Library} : world := mkWorld [] [].

(** ** A second library instance: members that fail

    Upload [[x03]] opens an archive whose first CSV member does not parse
    while the second would; upload [[x04]] opens one whose first CSV
    member cannot be read while the second could. *)




(** ** A third library instance: a name that repeats

    Upload [[x05]] opens an archive whose directory has two entries named
    [a.csv]; each content parses, to a frame of its own. *)

Definition second_frame : DataFrame string :=
  mkDataFrame ["Campaign Id"; "Sent"] [ ["99"; "1"] ].

Definition repeated_name_zip : ZipFile :=
  mkZipFile [ mkZipInfo "a.csv" (Some [x43]);
              mkZipInfo "a.csv" (Some [x44]) ].

Definition repeated_name_library : Library := {|
  cell := string;
  zip_open := fun b =>
    match b with
    | [x05] => Some repeated_name_zip
    | _ => None
    end;
  pd_read_csv := fun b =>
    match b with
    | [x43] => Some sample_frame
    | [x44] => Some second_frame
    | _ => None
    end;
  df_to_csv := fun df => String.concat "," (columns df)
|}.

(** ** Reading strings back

    Helpers to state what the produced strings contain: [s.split(q)] at
    the double quote, [s.replace(",", "")], and [int(s)] on decimal
    digits. *)

Fixpoint split_dquote (s : string) : list string :=
  match s with
  | EmptyString => [EmptyString]
  | String c s' =>
      if Ascii.eqb c "034" then EmptyString :: split_dquote s'
      else
        match split_dquote s' with
        | [] => [String c EmptyString]
        | piece :: pieces => String c piece :: pieces
        end
  end.

Definition no_dquote (s : string) : Prop :=
  Forall (fun c => c <> "034"%char) (list_ascii_of_string s).

Definition remove_commas (s : string) : string :=
  string_of_list_ascii
    (List.filter (fun c => negb (Ascii.eqb c ","))
       (list_ascii_of_string s)).

Fixpoint N_of_digits_from (acc : N) (s : string) : N :=
  match s with
  | EmptyString => acc
  | String c s' => N_of_digits_from (10 * acc + (N_of_ascii c - 48)) s'
  end.

Definition N_of_digits (s : string) : N := N_of_digits_from 0 s.

Definition dict_values (d : dict) : list string := map snd d.


(** ** The table parser and the serializer of the specification

    The script leaves both to [pandas] ([pd.read_csv], [DataFrame.to_csv]):
    the repository has no code for them.  They are written here after
    sections 3, 4.2 and 4.4 of the specification, over the text of the
    content. *)

(** Modelled from the spec: the field values of a Table (section 3), for
    which the repository has no type of its own.  A value is absent, a
    number, or text. *)
Inductive value : Type :=
| Absent
| Number (n : Z)
| Text (s : string).

(** Modelled from the spec: the canonical decimal form of a number
    (section 4.4), left to [DataFrame.to_csv] by the script. *)
Definition render_number (n : Z) : string :=
  NilZero.string_of_int (Z.to_int n).

(** Modelled from the spec: which fields look numeric (section 3), left
    to [pd.read_csv] by the script: an optional minus sign and at least
    one decimal digit. *)
Definition infer_number (raw : string) : option Z :=
  option_map Z.of_int (NilZero.int_of_string raw).

(** Modelled from the spec: the typing of a raw field (sections 3 and
    4.2), left to [pd.read_csv] by the script: an empty field is absent,
    a numeric-looking field is a number, everything else is text. *)
Definition infer (raw : string) : value :=
  if String.eqb raw "" then Absent
  else match infer_number raw with
       | Some n => Number n
       | None => Text raw
       end.

(** Modelled from the spec: the text of a value before quoting (section
    4.4), left to [DataFrame.to_csv] by the script: an absent value is
    the empty field, a number its canonical decimal form. *)
Definition render_value (v : value) : string :=
  match v with
  | Absent => ""
  | Number n => render_number n
  | Text s => s
  end.

(** Modelled from the spec: the characters that force a field into
    quotes (section 4.4), left to [DataFrame.to_csv] by the script: the
    delimiter, the quote character and the line breaks. *)
Definition special (c : ascii) : bool :=
  Ascii.eqb c "," || Ascii.eqb c "034" || Ascii.eqb c "010"
  || Ascii.eqb c "013".

(** Modelled from the spec: the standard quoting of a field (sections 4.2
    and 4.4), left to [DataFrame.to_csv] by the script: a quote inside a
    quoted field is written twice. *)
Fixpoint escape (s : list ascii) : list ascii :=
  match s with
  | [] => []
  | c :: s' =>
      if Ascii.eqb c "034" then "034"%char :: "034"%char :: escape s'
      else c :: escape s'
  end.

(** Modelled from the spec: one field of the output (section 4.4), left
    to [DataFrame.to_csv] by the script: quoted when it holds a special
    character, as it is otherwise. *)
Definition render_field (s : list ascii) : list ascii :=
  if existsb special s then "034"%char :: escape s ++ ["034"%char] else s.

(** Modelled from the spec: one row of the output (section 4.4), left to
    [DataFrame.to_csv] by the script: the fields with commas between
    them, and a newline at the end. *)
Fixpoint render_row (fields : list (list ascii)) : list ascii :=
  match fields with
  | [] => ["010"%char]
  | [f] => render_field f ++ ["010"%char]
  | f :: rest => render_field f ++ ","%char :: render_row rest
  end.

(** Modelled from the spec: [serialize] (section 4.4), which the script
    leaves to [DataFrame.to_csv]: the header row, then one row per data
    row. *)
Definition serialize (t : DataFrame value) : string :=
  string_of_list_ascii
    (render_row (map list_ascii_of_string (columns t))
     ++ concat
          (map (fun row =>
                  render_row
                    (map (fun v => list_ascii_of_string (render_value v))
                       row))
             (data t))).

(** Modelled from the spec: where the reader of the content stands
    (section 4.2, standard quoting), left to [pd.read_csv] by the script:
    in a plain field, inside quotes, or just after a quote met inside
    quotes. *)
Inductive scan_mode : Type := Plain | Quoted | QuoteSeen.

(** Modelled from the spec: the reading of the content into rows of raw
    fields (section 4.2), left to [pd.read_csv] by the script.  A comma
    ends a field and a newline ends a row, except inside quotes; a quote
    opens a quoted field at the start of a field only; two quotes inside
    quotes stand for one.  [cur] is the field being read, last character
    first; [row] holds the fields of the row read so far, last field
    first; [pending] tells that the row has been begun.  Content that
    ends without a newline ends its last row. *)
Fixpoint scan (input : list ascii) (m : scan_mode) (cur : list ascii)
    (row : list (list ascii)) (pending : bool) : list (list (list ascii)) :=
  match input with
  | [] => if pending then [rev (rev cur :: row)] else []
  | c :: rest =>
      match m with
      | Plain =>
          if Ascii.eqb c "010" then
            rev (rev cur :: row) :: scan rest Plain [] [] false
          else if Ascii.eqb c "," then
            scan rest Plain [] (rev cur :: row) true
          else if Ascii.eqb c "034" && bool_decide (cur = []) then
            scan rest Quoted [] row true
          else scan rest Plain (c :: cur) row true
      | Quoted =>
          if Ascii.eqb c "034" then scan rest QuoteSeen cur row true
          else scan rest Quoted (c :: cur) row true
      | QuoteSeen =>
          if Ascii.eqb c "034" then
            scan rest Quoted ("034"%char :: cur) row true
          else if Ascii.eqb c "010" then
            rev (rev cur :: row) :: scan rest Plain [] [] false
          else if Ascii.eqb c "," then
            scan rest Plain [] (rev cur :: row) true
          else scan rest Plain (c :: cur) row true
      end
  end.

(** Modelled from the spec: a data row brought to the width of the
    header (section 4.2), left to [pd.read_csv] by the script: missing
    trailing fields are added empty, fields beyond the header are
    dropped. *)
Definition fit (width : nat) (row : list (list ascii)) : list (list ascii) :=
  take width (row ++ replicate (width - length row) []).

(** Modelled from the spec: [parseTable] (section 4.2), which the script
    leaves to [pd.read_csv]: the first row is the header, every other row
    a data row of typed values; content without a header row is
    malformed ([None]). *)
Definition parseTable (content : string) : option (DataFrame value) :=
  match scan (list_ascii_of_string content) Plain [] [] false with
  | [] => None
  | header :: rows =>
      Some (mkDataFrame
              (map string_of_list_ascii header)
              (map (fun row =>
                      map (fun raw => infer (string_of_list_ascii raw))
                        (fit (length header) row))
                 rows))
  end.







(** ** Sample evaluations *)

Example is_csv_examples :
  is_csv "a/B.CsV" = true /\ is_csv ".csv" = true
  /\ is_csv "csv" = false /\ is_csv "x.csv.txt" = false.
Proof. repeat split; reflexivity. Qed.

Example format_thousands_examples :
  PyStr.format_thousands 0 = "0" /\ PyStr.format_thousands 999 = "999"
  /\ PyStr.format_thousands 1000 = "1,000"
  /\ PyStr.format_thousands 1234567 = "1,234,567".
Proof. repeat split; reflexivity. Qed.

Example output_filename_example :
  output_filename sample_now = "processed_20240307_090500.csv".
Proof. reflexivity. Qed.
(** ** Facts about strings *)

Lemma length_lower s : String.length (PyStr.lower s) = String.length s.
Proof. induction s as [|c s IH]; simpl; [reflexivity | now rewrite IH]. Qed.

Lemma lower_app s t :
  PyStr.lower (s +:+ t) = PyStr.lower s +:+ PyStr.lower t.
Proof. induction s as [|c s IH]; simpl; [reflexivity | now rewrite IH]. Qed.

Lemma substring_whole s : substring 0 (String.length s) s = s.
Proof. induction s as [|c s IH]; simpl; [reflexivity | now rewrite IH]. Qed.

Lemma substring_app_suffix p s :
  substring (String.length p) (String.length s) (p +:+ s) = s.
Proof.
  induction p as [|c p IH]; simpl; [apply substring_whole | exact IH].
Qed.

Lemma substring_split s : forall m k,
  m + k = String.length s -> s = substring 0 m s +:+ substring m k s.
Proof.
  induction s as [|c s IH]; intros m k Hlen; simpl in Hlen.
  - destruct m, k; try discriminate. reflexivity.
  - destruct m as [|m]; simpl.
    + destruct k as [|k]; [discriminate|].
      injection Hlen as Hlen. subst k. now rewrite substring_whole.
    + change (String c s = String c (substring 0 m s +:+ substring m k s)).
      f_equal. apply IH. lia.
Qed.

Lemma length_substring_prefix s : forall m,
  m <= String.length s -> String.length (substring 0 m s) = m.
Proof.
  induction s as [|c s IH]; intros [|m] Hm; simpl in *; try reflexivity;
    [lia | rewrite IH; lia].
Qed.

Lemma app_length_inj p q : forall s t,
  String.length p = String.length q -> p +:+ s = q +:+ t -> p = q /\ s = t.
Proof.
  revert q. induction p as [|c p IH]; intros [|d q] s t Hlen Heq;
    simpl in *; try discriminate.
  - now split.
  - injection Heq as -> Heq. injection Hlen as Hlen.
    destruct (IH _ _ _ Hlen Heq) as [-> ->]. now split.
Qed.

Lemma string_app_length s t :
  String.length (s +:+ t) = String.length s + String.length t.
Proof. induction s as [|c s IH]; simpl; [reflexivity | now rewrite IH]. Qed.

(** [endswith] holds exactly of the strings that are some prefix followed
    by the suffix. *)
Lemma endswith_spec s suffix :
  PyStr.endswith s suffix = true <-> exists p, s = p +:+ suffix.
Proof.
  unfold PyStr.endswith. rewrite andb_true_iff, Nat.leb_le, String.eqb_eq.
  split.
  - intros [Hle Hsub].
    exists (substring 0 (String.length s - String.length suffix) s).
    rewrite <- Hsub at 2. apply substring_split. lia.
  - intros [p ->]. rewrite string_app_length. split; [lia|].
    replace (String.length p + String.length suffix - String.length suffix)
      with (String.length p) by lia.
    apply substring_app_suffix.
Qed.

Ltac by_cases_on_char c :=
  destruct c as [[] [] [] [] [] [] [] []]; vm_compute; intros H;
  try discriminate H; auto.

Lemma lower_char_dot a : PyStr.lower_char a = "."%char -> a = "."%char.
Proof. by_cases_on_char a. Qed.

Lemma lower_char_c a :
  PyStr.lower_char a = "c"%char -> a = "c"%char \/ a = "C"%char.
Proof. by_cases_on_char a. Qed.

Lemma lower_char_s a :
  PyStr.lower_char a = "s"%char -> a = "s"%char \/ a = "S"%char.
Proof. by_cases_on_char a. Qed.

Lemma lower_char_v a :
  PyStr.lower_char a = "v"%char -> a = "v"%char \/ a = "V"%char.
Proof. by_cases_on_char a. Qed.

(** The strings that [lower] sends to [".csv"] are its eight spellings. *)
Lemma lower_is_csv x : PyStr.lower x = ".csv" <-> x ∈ csv_suffixes.
Proof.
  split.
  - destruct x as [|a [|b [|c [|d [|e x]]]]]; simpl; try discriminate.
    intros H. injection H as Ha Hb Hc Hd.
    apply lower_char_dot in Ha. apply lower_char_c in Hb.
    apply lower_char_s in Hc. apply lower_char_v in Hd.
    subst a. unfold csv_suffixes.
    destruct Hb as [-> | ->], Hc as [-> | ->], Hd as [-> | ->];
      repeat ((apply list_elem_of_here) || (apply list_elem_of_further)).
  - unfold csv_suffixes. intros H.
    repeat (apply elem_of_cons in H as [-> | H]; [reflexivity|]).
    now apply elem_of_nil in H.
Qed.

(** A name passes the filter exactly when it ends with one of the eight
    spellings of the extension. *)
Lemma is_csv_spec f :
  is_csv f = true <-> exists p x, x ∈ csv_suffixes /\ f = p +:+ x.
Proof.
  unfold is_csv. rewrite endswith_spec. split.
  - intros [q Hq].
    assert (Hlen : String.length f = String.length q + 4).
    { rewrite <- (length_lower f), Hq, string_app_length. reflexivity. }
    pose proof (substring_split f (String.length q) 4 ltac:(lia)) as Hf.
    set (p := substring 0 (String.length q) f) in *.
    set (x := substring (String.length q) 4 f) in *.
    exists p, x. split; [|exact Hf].
    apply lower_is_csv.
    rewrite Hf, lower_app in Hq.
    apply app_length_inj in Hq as [_ Hx]; [exact Hx|].
    rewrite length_lower. subst p. apply length_substring_prefix. lia.
  - intros (p & x & Hx & ->). exists (PyStr.lower p).
    rewrite lower_app. f_equal. now apply lower_is_csv.
Qed.

(** ** Facts about dictionaries and the rename step *)

Lemma dict_get_Some d k v : dict_get d k = Some v -> (k, v) ∈ d.
Proof.
  induction d as [|[k' v'] d IH]; simpl; [discriminate|].
  destruct (String.eqb_spec k k') as [-> | Hne].
  - intros [= ->]. apply list_elem_of_here.
  - intros H. apply list_elem_of_further, IH, H.
Qed.

Lemma dict_get_None d k : dict_get d k = None -> forall v, (k, v) ∉ d.
Proof.
  induction d as [|[k' v'] d IH]; simpl; intros H v Hin.
  - now apply elem_of_nil in Hin.
  - destruct (String.eqb_spec k k') as [-> | Hne]; [discriminate|].
    apply elem_of_cons in Hin as [[= -> ->] | Hin]; [now apply Hne|].
    exact (IH H v Hin).
Qed.

(** Restricting a dictionary to the keys found in [keep] does not change
    what is stored under such a key. *)
Lemma dict_get_filter_keys (d : dict) (keep : list string) k :
  k ∈ keep ->
  dict_get (filter (fun kv => kv.1 ∈ keep) d) k = dict_get d k.
Proof.
  intros Hk. induction d as [|[k' v'] d IH]; [reflexivity|].
  rewrite filter_cons. simpl.
  destruct (decide (k' ∈ keep)) as [Hin | Hout]; simpl.
  - now rewrite IH.
  - destruct (String.eqb_spec k k') as [-> | Hne]; [contradiction | exact IH].
Qed.

Lemma dict_keys_filter (d : dict) (keep : list string) :
  dict_keys (filter (fun kv => kv.1 ∈ keep) d)
  = filter (fun k => k ∈ keep) (dict_keys d).
Proof.
  induction d as [|[k v] d IH]; [reflexivity|].
  unfold dict_keys in *. simpl. rewrite !filter_cons. simpl.
  destruct (decide (k ∈ keep)); simpl; now rewrite IH.
Qed.

Lemma column_mapping_keys_NoDup : NoDup (dict_keys column_mapping).
Proof. apply (bool_decide_unpack _). vm_compute. exact I. Qed.

(** No target name of the mapping is one of its keys. *)
Lemma column_mapping_targets_fresh k t :
  (k, t) ∈ column_mapping -> dict_get column_mapping t = None.
Proof.
  unfold column_mapping. intros H.
  repeat (apply elem_of_cons in H as [[= -> ->] | H]; [reflexivity|]).
  now apply elem_of_nil in H.
Qed.

(** The label that replaces [c]. *)
Lemma rename_headers_columns {cell} (df : DataFrame cell) :
  columns (rename_headers df)
  = map (fun c => default c (dict_get column_mapping c)) (columns df).
Proof.
  unfold rename_headers, df_rename, rename_dict. simpl.
  apply map_ext_in. intros c Hc.
  rewrite dict_get_filter_keys; [reflexivity|].
  now apply list_elem_of_In.
Qed.

Lemma rename_label_idempotent c :
  default (default c (dict_get column_mapping c))
          (dict_get column_mapping (default c (dict_get column_mapping c)))
  = default c (dict_get column_mapping c).
Proof.
  destruct (dict_get column_mapping c) as [t|] eqn:E.
  - apply dict_get_Some in E.
    change (default t (dict_get column_mapping t) = t).
    now rewrite (column_mapping_targets_fresh _ _ E).
  - change (default c (dict_get column_mapping c) = c). now rewrite E.
Qed.

(** ** The header rewriter *)

(** C2: the number of entries of [rename_dict], which is the count of
    renamed headers, is the size of the intersection of the set of the
    frame's labels with the set of the mapping's keys.  For the labels
    [Campaign Id], [Foo], [Sent] the count is 2 and the labels become
    [Campaign__Campaign_Id], [Foo], [Msg_Sent], in that order. *)
Theorem renamed_count_is_intersection_size {cell} (df : DataFrame cell) :
  length (rename_dict (columns df))
  = size ((list_to_set (columns df) : gset string)
            ∩ list_to_set (dict_keys column_mapping))
  /\ forall rows : list (list cell),
       let sample := mkDataFrame ["Campaign Id"; "Foo"; "Sent"] rows in
       length (rename_dict (columns sample)) = 2
       /\ columns (rename_headers sample)
          = ["Campaign__Campaign_Id"; "Foo"; "Msg_Sent"].
Proof.
  split.
  - unfold rename_dict.
    rewrite <- (length_map fst). fold (dict_keys (filter (fun kv => kv.1 ∈ columns df) column_mapping)).
    rewrite dict_keys_filter.
    rewrite <- (size_list_to_set (C := gset string)).
    + f_equal. apply set_eq. intros k.
      rewrite elem_of_list_to_set, list_elem_of_filter, elem_of_intersection,
        !elem_of_list_to_set. reflexivity.
    + apply NoDup_filter, column_mapping_keys_NoDup.
  - intros rows sample. split; vm_compute; reflexivity.
Qed.

(** C5: renaming keeps the number of columns and every row; at each
    position, a label that is a key of the mapping (the very same string)
    is replaced by the mapped name, and a label that is no key stays. *)
Theorem rename_changes_only_matching_labels {cell} (df : DataFrame cell) :
  length (columns (rename_headers df)) = length (columns df)
  /\ data (rename_headers df) = data df
  /\ forall (i : nat) (c : string), columns df !! i = Some c ->
       (exists new, (c, new) ∈ column_mapping
                    /\ columns (rename_headers df) !! i = Some new)
       \/ ((forall new, (c, new) ∉ column_mapping)
           /\ columns (rename_headers df) !! i = Some c).
Proof.
  rewrite rename_headers_columns. split; [apply length_map|].
  split; [reflexivity|].
  intros i c Hi.
  assert (Hnew : map (fun c => default c (dict_get column_mapping c))
                   (columns df) !! i
                 = Some (default c (dict_get column_mapping c))).
  { change (map ?f ?l) with (f <$> l). now rewrite list_lookup_fmap, Hi. }
  rewrite Hnew.
  destruct (dict_get column_mapping c) as [new|] eqn:E.
  - left. exists new. split; [now apply dict_get_Some | reflexivity].
  - right. split; [now apply dict_get_None | reflexivity].
Qed.

(** The comparison is by exact spelling: a label that differs from a key
    in capitals only, or by a blank, is not renamed. *)
Example rename_is_case_sensitive :
  columns (rename_headers
             (mkDataFrame ["campaign id"; "SENT"; "Sent "; "Sent"] [[1; 2; 3; 4]]))
  = ["campaign id"; "SENT"; "Sent "; "Msg_Sent"].
Proof. vm_compute. reflexivity. Qed.

(** C6: no target name of the mapping is one of its keys, and so renaming
    a renamed frame changes nothing. *)
Theorem rename_headers_idempotent :
  (forall k t, (k, t) ∈ column_mapping -> t ∉ dict_keys column_mapping)
  /\ forall cell (df : DataFrame cell),
       rename_headers (rename_headers df) = rename_headers df.
Proof.
  split.
  - intros k t Hkt Hkey. apply column_mapping_targets_fresh in Hkt.
    unfold dict_keys in Hkey. apply list_elem_of_In, in_map_iff in Hkey.
    destruct Hkey as [[k' v] [Hfst Hin]]. simpl in Hfst. subst k'.
    apply list_elem_of_In in Hin.
    exact (dict_get_None _ _ Hkt v Hin).
  - intros cell df.
    assert (Hcols : columns (rename_headers (rename_headers df))
                    = columns (rename_headers df)).
    { rewrite (rename_headers_columns (rename_headers df)).
      rewrite (rename_headers_columns df), map_map.
      apply map_ext. intros c. apply rename_label_idempotent. }
    destruct (rename_headers (rename_headers df)) as [cols2 rows2] eqn:E2.
    destruct (rename_headers df) as [cols1 rows1] eqn:E1.
    simpl in Hcols. subst cols2. f_equal.
    change rows2 with (data (mkDataFrame cols1 rows2)). rewrite <- E2.
    reflexivity.
Qed.

(** ** Facts about the time stamp *)

Lemma N_below_in_range (b n : nat) (x : N) :
  (N.of_nat b <= x)%N -> (x < N.of_nat (b + n))%N ->
  In x (map N.of_nat (seq b n)).
Proof.
  intros Hlo Hhi. apply in_map_iff. exists (N.to_nat x).
  split; [apply N2Nat.id | apply in_seq; lia].
Qed.

Lemma zfill_two_digits (n : N) :
  (n <= 99)%N -> PyStr.zfill 2 (PyStr.str_of_N n) = two_digits n.
Proof.
  intros Hn.
  assert (Hall : forallb (fun n => String.eqb (PyStr.zfill 2 (PyStr.str_of_N n))
                                     (two_digits n))
                   (map N.of_nat (seq 0 100)) = true)
    by (vm_compute; reflexivity).
  rewrite forallb_forall in Hall. apply String.eqb_eq, Hall.
  apply N_below_in_range; simpl; lia.
Qed.

Lemma zfill_four_digits (n : N) :
  (1000 <= n <= 9999)%N -> PyStr.zfill 4 (PyStr.str_of_N n) = four_digits n.
Proof.
  intros Hn.
  assert (Hall : forallb (fun n => String.eqb (PyStr.zfill 4 (PyStr.str_of_N n))
                                     (four_digits n))
                   (map N.of_nat (seq 1000 (9 * 1000))) = true)
    by (vm_compute; reflexivity).
  rewrite forallb_forall in Hall. apply String.eqb_eq, Hall.
  apply N_below_in_range; lia.
Qed.

(** With a four-digit year the name built by [strftime] is the specified
    one. *)
Lemma output_filename_spec (now : datetime) :
  valid_datetime now -> output_filename now = filename_spec now.
Proof.
  intros (Hy & Hm & Hd & HH & HM & HS).
  unfold output_filename, filename_spec.
  change (strftime now "%Y%m%d_%H%M%S")
    with (PyStr.zfill 4 (PyStr.str_of_N (year now))
          +:+ PyStr.zfill 2 (PyStr.str_of_N (month now))
          +:+ PyStr.zfill 2 (PyStr.str_of_N (day now))
          +:+ String "_" (PyStr.zfill 2 (PyStr.str_of_N (hour now))
          +:+ PyStr.zfill 2 (PyStr.str_of_N (minute now))
          +:+ PyStr.zfill 2 (PyStr.str_of_N (second now)) +:+ "")).
  rewrite zfill_four_digits by exact Hy.
  rewrite !zfill_two_digits by lia.
  reflexivity.
Qed.

Lemma filename_spec_length (now : datetime) :
  String.length (filename_spec now) = 29.
Proof. reflexivity. Qed.

(** ** Facts about the selection *)

(** The first name kept by the filter is the first name of the listing
    that passes it. *)
Lemma csv_files_first (file_list : list string) csv_file others :
  csv_files file_list = csv_file :: others ->
  exists before after,
    file_list = before ++ csv_file :: after
    /\ Forall (fun f => is_csv f = false) before
    /\ is_csv csv_file = true
    /\ others = csv_files after.
Proof.
  unfold csv_files.
  induction file_list as [|f l IH]; [discriminate|].
  rewrite filter_cons. destruct (decide (is_csv f = true)) as [Hf | Hf].
  - intros [= -> <-]. exists [], l. repeat split; [constructor | exact Hf].
  - intros H. destruct (IH H) as (before & after & -> & Hb & Hc & Ho).
    exists (f :: before), after. repeat split; try assumption.
    constructor; [|exact Hb]. now destruct (is_csv f).
Qed.

Lemma csv_files_none (file_list : list string) :
  (forall f p x, f ∈ file_list -> x ∈ csv_suffixes -> f <> p +:+ x) ->
  csv_files file_list = [].
Proof.
  intros Hnone. unfold csv_files.
  destruct (filter (fun f => is_csv f = true) file_list) as [|f l] eqn:E;
    [reflexivity|exfalso].
  assert (Hin : f ∈ filter (fun f => is_csv f = true) file_list).
  { rewrite E. apply list_elem_of_here. }
  apply list_elem_of_filter in Hin as [Hcsv Hin].
  apply is_csv_spec in Hcsv as (p & x & Hx & Hf).
  exact (Hnone f p x Hin Hx Hf).
Qed.

(** ** Facts about the archive *)

Lemma name_to_info_snoc (entries : list ZipInfo) (x : ZipInfo) :
  name_to_info (entries ++ [x]) = <[filename x := x]> (name_to_info entries).
Proof. unfold name_to_info. now rewrite foldl_app. Qed.

(** The entry stored under a name is the last one of the directory that
    bears it. *)
Lemma name_to_info_lookup (entries : list ZipInfo) name info :
  name_to_info entries !! name = Some info ->
  exists earlier later,
    entries = earlier ++ info :: later
    /\ filename info = name
    /\ Forall (fun x => filename x <> name) later.
Proof.
  induction entries as [|x entries IH] using rev_ind.
  - unfold name_to_info. simpl. rewrite lookup_empty. discriminate.
  - rewrite name_to_info_snoc.
    destruct (decide (filename x = name)) as [Heq | Hne].
    + rewrite <- Heq, lookup_insert_eq. intros [= <-].
      exists entries, []. repeat split. constructor.
    + rewrite lookup_insert_ne by exact Hne. intros H.
      destruct (IH H) as (earlier & later & -> & Hn & Hl).
      exists earlier, (later ++ [x]). split; [now rewrite <- app_assoc|].
      split; [exact Hn|]. apply Forall_app. split; [exact Hl|].
      constructor; [exact Hne | constructor].
Qed.

Lemma name_to_info_is_Some (entries : list ZipInfo) name :
  name ∈ map filename entries -> is_Some (name_to_info entries !! name).
Proof.
  induction entries as [|x entries IH] using rev_ind.
  - simpl. intros H. now apply elem_of_nil in H.
  - rewrite map_app, name_to_info_snoc. simpl. intros H.
    destruct (decide (filename x = name)) as [Heq | Hne].
    + rewrite <- Heq, lookup_insert_eq. eauto.
    + rewrite lookup_insert_ne by exact Hne. apply IH.
      apply elem_of_app in H as [H | H]; [exact H|].
      apply list_elem_of_singleton in H. congruence.
Qed.

(** A list is cut in one way only around an element that occurs once. *)
Lemma split_at_only_occurrence {A} (c : A) (a1 b1 a2 b2 : list A) :
  c ∉ a1 -> c ∉ b1 -> a1 ++ c :: b1 = a2 ++ c :: b2 -> a1 = a2.
Proof.
  revert a2. induction a1 as [|x a1 IH]; intros [|y a2] Ha Hb Heq;
    simpl in Heq.
  - reflexivity.
  - injection Heq as <- Heq. exfalso. apply Hb. rewrite Heq.
    apply elem_of_app. right. apply list_elem_of_here.
  - injection Heq as -> Heq. exfalso. apply Ha. apply list_elem_of_here.
  - injection Heq as <- Heq. f_equal. apply IH; [|exact Hb | exact Heq].
    intros H. apply Ha. now apply list_elem_of_further.
Qed.

(** ** Runs of the pipeline *)

Section Runs.
Context {L : Library}.

(** What [process_zip_file] does on an upload that opens as [z]. *)
Lemma process_zip_file_run upload now w z :
  zip_open upload = Some z ->
  process_zip_file upload now w =
  match csv_files (namelist z) with
  | [] =>
      (mkWorld (ui w ++ [st_error "No CSV files found in the ZIP archive"])
         (reads w), inr None)
  | csv_file :: _ =>
      let found := st_info ("Found CSV file: " +:+ csv_file) in
      match zip_read z csv_file with
      | None =>
          (mkWorld (ui w ++ [found]) (reads w ++ [csv_file]),
           inl (ZipReadError csv_file))
      | Some content =>
          match pd_read_csv content with
          | None =>
              (mkWorld (ui w ++ [found]) (reads w ++ [csv_file]),
               inl ParserError)
          | Some parsed =>
              let df := rename_headers parsed in
              (mkWorld
                 (ui w ++ [found;
                           st_write_list "Original columns:" (columns parsed);
                           st_write_list "Renamed columns:" (columns df)])
                 (reads w ++ [csv_file]),
               inr (Some (df, df_to_csv df, output_filename now)))
          end
      end
  end.
Proof.
  intros Hopen.
  unfold process_zip_file, mbind, M_bind, lift_option, mret, M_ret, raise,
    emit, read_member.
  rewrite Hopen. simpl.
  destruct (csv_files (namelist z)) as [|csv_file others]; simpl;
    [reflexivity|].
  destruct (zip_read z csv_file) as [content|]; simpl; [|reflexivity].
  destruct (pd_read_csv content) as [parsed|]; simpl; [|reflexivity].
  rewrite <- !app_assoc. reflexivity.
Qed.

(** C1: a run that finds a CSV member, reads it and parses it shows the
    preview, the link, the two totals and the metric of the rows, and is
    then stopped by [NameError]: [rename_dict] is a local variable of
    [process_zip_file], not a name [main] can read.  The metric of the
    renamed headers is never shown. *)
Theorem main_stops_before_renamed_count
    upload now w z csv_file others content parsed :
  zip_open upload = Some z ->
  csv_files (namelist z) = csv_file :: others ->
  zip_read z csv_file = Some content ->
  pd_read_csv content = Some parsed ->
  let df := rename_headers parsed in
  let shown :=
    main_prologue
    ++ [ st_info ("Found CSV file: " +:+ csv_file);
         st_write_list "Original columns:" (columns parsed);
         st_write_list "Renamed columns:" (columns df) ]
    ++ main_report df (df_to_csv df) (output_filename now) in
  main (Some upload) true now w
  = (mkWorld (ui w ++ shown) (reads w ++ [csv_file]),
     inl (NameError "rename_dict"))
  /\ st_write ("Total rows: " +:+ PyStr.str_of_N (df_len df)) ∈ shown
  /\ st_write ("Total columns: " +:+ PyStr.str_of_N (columns_len df)) ∈ shown
  /\ forall value, st_metric "Columns Renamed" value ∉ shown.
Proof.
  intros Hopen Hcsv Hread Hparse df shown.
  split; [|split; [|split]].
  - unfold main, mbind, M_bind, mret, M_ret, emit. simpl.
    rewrite (process_zip_file_run _ _ _ z Hopen), Hcsv. simpl.
    rewrite Hread, Hparse. simpl.
    unfold shown, main_prologue, main_report. fold df.
    rewrite <- !app_assoc. reflexivity.
  - unfold shown, main_prologue, main_report. simpl.
    do 12 apply list_elem_of_further. apply list_elem_of_here.
  - unfold shown, main_prologue, main_report. simpl.
    do 13 apply list_elem_of_further. apply list_elem_of_here.
  - intros value H. unfold shown, main_prologue, main_report in H.
    simpl in H.
    repeat (apply elem_of_cons in H as [H | H]; [discriminate H|]).
    now apply elem_of_nil in H.
Qed.

(** C3: the names kept are the names of the listing that end with one of
    the spellings of [.csv], and the name chosen is the first of the
    listing that qualifies.  One member is read, by that name, and the
    result is computed from its content alone.  The archive answers with
    the last entry of its directory that bears the name: this is the
    first qualifying entry when the name is not repeated among the later
    CSV names, and a later entry when it is. *)
Theorem first_csv_name_reads_last_entry upload now w z :
  zip_open upload = Some z ->
  (forall f, f ∈ csv_files (namelist z) <->
             f ∈ namelist z /\ exists p x, x ∈ csv_suffixes /\ f = p +:+ x)
  /\ match csv_files (namelist z) with
     | [] => reads (process_zip_file upload now w).1 = reads w
     | csv_file :: others =>
         (exists before after,
             namelist z = before ++ csv_file :: after
             /\ Forall (fun f => is_csv f = false) before
             /\ is_csv csv_file = true
             /\ others = csv_files after)
         /\ reads (process_zip_file upload now w).1 = reads w ++ [csv_file]
         /\ exists earlier info later,
              filelist z = earlier ++ info :: later
              /\ filename info = csv_file
              /\ Forall (fun x => filename x <> csv_file) later
              /\ (csv_file ∉ others ->
                  Forall (fun x => is_csv (filename x) = false) earlier)
              /\ (process_zip_file upload now w).2
                 = match file_data info with
                   | None => inl (ZipReadError csv_file)
                   | Some content =>
                       match pd_read_csv content with
                       | None => inl ParserError
                       | Some parsed =>
                           let df := rename_headers parsed in
                           inr (Some (df, df_to_csv df, output_filename now))
                       end
                   end
     end.
Proof.
  intros Hopen. split.
  - intros f. unfold csv_files. rewrite list_elem_of_filter, is_csv_spec.
    tauto.
  - rewrite (process_zip_file_run _ _ _ z Hopen).
    destruct (csv_files (namelist z)) as [|csv_file others] eqn:Hcsv;
      [reflexivity|].
    destruct (csv_files_first _ _ _ Hcsv)
      as (before & after & Hnames & Hbefore & Hfirst & Hothers).
    split; [now exists before, after|].
    assert (Hin : csv_file ∈ map filename (filelist z)).
    { fold (namelist z). rewrite Hnames.
      apply elem_of_app. right. apply list_elem_of_here. }
    destruct (name_to_info_is_Some _ _ Hin) as [info Hinfo].
    destruct (name_to_info_lookup _ _ _ Hinfo)
      as (earlier & later & Hlist & Hname & Hlater).
    assert (Hread : zip_read z csv_file = file_data info).
    { unfold zip_read, getinfo. now rewrite Hinfo. }
    rewrite Hread. split.
    { destruct (file_data info) as [content|]; simpl; [|reflexivity].
      destruct (pd_read_csv content); reflexivity. }
    exists earlier, info, later.
    split; [exact Hlist|]. split; [exact Hname|]. split; [exact Hlater|].
    split.
    + intros Hfresh.
      assert (Hsame : before = map filename earlier).
      { apply (split_at_only_occurrence csv_file before after
                 (map filename earlier) (map filename later)).
        - intros Hb. rewrite Forall_forall in Hbefore.
          specialize (Hbefore _ Hb). congruence.
        - intros Ha. apply Hfresh. rewrite Hothers. unfold csv_files.
          apply list_elem_of_filter. now split.
        - rewrite <- Hnames. unfold namelist.
          now rewrite Hlist, map_app, <- Hname. }
      rewrite Hsame in Hbefore.
      rewrite Forall_forall in Hbefore. apply Forall_forall.
      intros x Hx. apply Hbefore. apply list_elem_of_In, in_map.
      now apply list_elem_of_In.
    + destruct (file_data info) as [content|]; simpl; [|reflexivity].
      destruct (pd_read_csv content); reflexivity.
Qed.

(** C4: when no member name ends with a spelling of [.csv], the run shows
    the error message, returns no frame, reads no member, and [main] shows
    nothing after the message: no preview, no link, no metric. *)
Theorem no_csv_member_is_reported upload now w z :
  zip_open upload = Some z ->
  (forall f p x, f ∈ namelist z -> x ∈ csv_suffixes -> f <> p +:+ x) ->
  process_zip_file upload now w
  = (mkWorld (ui w ++ [st_error "No CSV files found in the ZIP archive"])
       (reads w), inr None)
  /\ main (Some upload) true now w
     = (mkWorld
          (ui w ++ main_prologue
             ++ [st_error "No CSV files found in the ZIP archive"])
          (reads w), inr tt).
Proof.
  intros Hopen Hnone. apply csv_files_none in Hnone. split.
  - now rewrite (process_zip_file_run _ _ _ z Hopen), Hnone.
  - unfold main, mbind, M_bind, mret, M_ret, emit. simpl.
    rewrite (process_zip_file_run _ _ _ z Hopen), Hnone. simpl.
    unfold main_prologue. rewrite <- !app_assoc. reflexivity.
Qed.

(** C9: the file name returned by a successful run is [processed_], the
    time of the run as year, month, day, an underscore, hour, minute and
    second in four and two digits, and [.csv]: 29 characters. *)
Theorem output_filename_is_timestamped upload now w w' df csv_string filename :
  valid_datetime now ->
  process_zip_file upload now w = (w', inr (Some (df, csv_string, filename))) ->
  filename = filename_spec now /\ String.length filename = 29.
Proof.
  intros Hnow Hrun.
  assert (Hname : filename = output_filename now).
  { revert Hrun.
    unfold process_zip_file, mbind, M_bind, lift_option, mret, M_ret, raise,
      emit, read_member.
    destruct (zip_open upload) as [z|]; simpl; [|discriminate].
    destruct (csv_files (namelist z)) as [|csv_file others]; simpl;
      [discriminate|].
    destruct (zip_read z csv_file) as [content|]; simpl; [|discriminate].
    destruct (pd_read_csv content) as [parsed|]; simpl; [|discriminate].
    now intros [= _ _ _ <-]. }
  rewrite Hname, (output_filename_spec now Hnow).
  split; [reflexivity | apply filename_spec_length].
Qed.

End Runs.

(** C8: the mapping of the script is the table of the specification, pair
    for pair: nine pairs with distinct source names, the last of them
    sending [Unique Opened %] to [Unique_Click_Count].  The pipeline takes
    no other: whenever a run returns a frame, it is the frame that
    [pd.read_csv] gave for the member read, renamed by lines 69-70 with
    this table, so that each label is the table's entry for the parsed
    label, or the parsed label where the table has none. *)
Theorem column_mapping_is_the_fixed_table :
  column_mapping = RenameMap_spec
  /\ length column_mapping = 9
  /\ NoDup (dict_keys column_mapping)
  /\ dict_get column_mapping "Unique Opened %" = Some "Unique_Click_Count"
  /\ forall (L : Library) upload now w w' df csv_string filename,
       process_zip_file upload now w
       = (w', inr (Some (df, csv_string, filename))) ->
       exists z csv_file others content parsed,
         zip_open upload = Some z
         /\ csv_files (namelist z) = csv_file :: others
         /\ zip_read z csv_file = Some content
         /\ pd_read_csv content = Some parsed
         /\ df = df_rename parsed
                  (filter (fun kv => kv.1 ∈ columns parsed) RenameMap_spec)
         /\ columns df
            = map (fun c => default c (dict_get RenameMap_spec c))
                  (columns parsed)
         /\ data df = data parsed.
Proof.
  split; [reflexivity|]. split; [reflexivity|].
  split; [exact column_mapping_keys_NoDup|]. split; [reflexivity|].
  intros L upload now w w' df csv_string filename Hrun.
  destruct (zip_open upload) as [z|] eqn:Hopen.
  - rewrite (process_zip_file_run _ _ _ z Hopen) in Hrun.
    destruct (csv_files (namelist z)) as [|csv_file others] eqn:Hcsv;
      [discriminate|].
    destruct (zip_read z csv_file) as [content|] eqn:Hread; [|discriminate].
    destruct (pd_read_csv content) as [parsed|] eqn:Hparse; [|discriminate].
    simpl in Hrun. injection Hrun as _ <- _ _.
    exists z, csv_file, others, content, parsed.
    repeat (split; [first [assumption | reflexivity]|]).
    split; [exact (rename_headers_columns parsed) | reflexivity].
  - revert Hrun.
    unfold process_zip_file, mbind, M_bind, lift_option, raise.
    rewrite Hopen. discriminate.
Qed.

(** ** The theorems at the sample upload *)

(** The sample run of [main]: fifteen events shown, the last of them the
    metric of the rows, then [NameError]. *)
Lemma main_stops_before_renamed_count_sample :
  (main (L := sample_library) (Some [x01]) true sample_now empty_world).2
  = inl (NameError "rename_dict")
  /\ last (ui (main (L := sample_library) (Some [x01]) true sample_now
                 empty_world).1)
     = Some (st_metric "Rows Processed" "2")
  /\ st_write "Total rows: 2"
     ∈ ui (main (L := sample_library) (Some [x01]) true sample_now
             empty_world).1.
Proof.
  destruct (main_stops_before_renamed_count (L := sample_library)
              [x01] sample_now empty_world sample_zip
              "data/Report.CSV" ["other.csv"] [x43] sample_frame
              eq_refl eq_refl eq_refl eq_refl) as (Hrun & Hrows & _ & _).
  rewrite Hrun. split; [reflexivity|]. split; [reflexivity|].
  exact Hrows.
Defined.

(** The archive with two entries named [a.csv]: the name is read once,
    and the frame returned is the one parsed from the second entry. *)
Lemma first_csv_name_reads_last_entry_sample :
  csv_files (namelist repeated_name_zip) = ["a.csv"; "a.csv"]
  /\ reads (process_zip_file (L := repeated_name_library) [x05] sample_now
              empty_world).1
     = ["a.csv"]
  /\ (process_zip_file (L := repeated_name_library) [x05] sample_now
        empty_world).2
     = inr (Some (rename_headers (cell := @cell repeated_name_library)
                    second_frame,
                  "Campaign__Campaign_Id,Msg_Sent",
                  "processed_20240307_090500.csv"))
  /\ pd_read_csv (Library := repeated_name_library) [x43]
     = Some sample_frame.
Proof.
  split; [reflexivity|]. split; [|split; reflexivity].
  exact (proj1 (proj2 (proj2
    (first_csv_name_reads_last_entry (L := repeated_name_library)
       [x05] sample_now empty_world repeated_name_zip eq_refl)))).
Defined.

(** In the sample archive no name repeats: the first CSV entry is read. *)
Example first_csv_entry_when_names_differ :
  csv_files (namelist sample_zip) = ["data/Report.CSV"; "other.csv"]
  /\ reads (process_zip_file (L := sample_library) [x01] sample_now
              empty_world).1
     = ["data/Report.CSV"]
  /\ zip_read sample_zip "data/Report.CSV" = Some [x43].
Proof. repeat split; reflexivity. Qed.

(** The archive without a CSV member: the message, and no frame. *)
Lemma no_csv_member_is_reported_sample :
  process_zip_file (L := sample_library) [x02] sample_now empty_world
  = (mkWorld [st_error "No CSV files found in the ZIP archive"] [], inr None)
  /\ main (L := sample_library) (Some [x02]) true sample_now empty_world
     = (mkWorld
          (main_prologue
             ++ [st_error "No CSV files found in the ZIP archive"]) [],
        inr tt).
Proof.
  apply (no_csv_member_is_reported (L := sample_library)
           [x02] sample_now empty_world sample_zip_no_csv eq_refl).
  intros f p x Hf Hx Heq.
  assert (Hcsv : is_csv f = true) by (apply is_csv_spec; eauto).
  simpl in Hf.
  repeat (apply elem_of_cons in Hf as [-> | Hf]; [discriminate Hcsv|]).
  now apply elem_of_nil in Hf.
Defined.

(** The sample run at 2024-03-07 09:05:00. *)
Lemma output_filename_is_timestamped_sample :
  "processed_20240307_090500.csv" = filename_spec sample_now
  /\ String.length "processed_20240307_090500.csv" = 29.
Proof.
  apply (output_filename_is_timestamped (L := sample_library)
           [x01] sample_now empty_world
           (process_zip_file (L := sample_library) [x01] sample_now
              empty_world).1
           (rename_headers (cell := @cell sample_library) sample_frame)
           (df_to_csv
              (rename_headers (cell := @cell sample_library) sample_frame))
           "processed_20240307_090500.csv").
  - unfold valid_datetime, sample_now. simpl. lia.
  - reflexivity.
Defined.

(** The sample run: the frame returned is the parsed frame of the first
    CSV member, renamed with the table of the specification. *)
Lemma column_mapping_is_the_fixed_table_sample :
  exists z csv_file others content parsed,
    zip_open (Library := sample_library) [x01] = Some z
    /\ csv_files (namelist z) = csv_file :: others
    /\ zip_read z csv_file = Some content
    /\ pd_read_csv (Library := sample_library) content = Some parsed
    /\ rename_headers (cell := @cell sample_library) sample_frame
       = df_rename parsed
           (filter (fun kv => kv.1 ∈ columns parsed) RenameMap_spec)
    /\ columns (rename_headers (cell := @cell sample_library) sample_frame)
       = map (fun c => default c (dict_get RenameMap_spec c))
           (columns parsed)
    /\ data (rename_headers (cell := @cell sample_library) sample_frame)
       = data parsed.
Proof.
  exact (proj2 (proj2 (proj2 (proj2 column_mapping_is_the_fixed_table)))
           sample_library [x01] sample_now empty_world
           (process_zip_file (L := sample_library) [x01] sample_now
              empty_world).1
           (rename_headers (cell := @cell sample_library) sample_frame)
           "Campaign__Campaign_Id,Foo,Msg_Sent"
           "processed_20240307_090500.csv" eq_refl).
Defined.

(** * Further properties of the script *)

(** ** Failing and idle runs *)

Section MoreRuns.
Context {L : Library}.

(** What [main] does around the call, whatever the call does. *)
Lemma main_run upload now w :
  main (Some upload) true now w
  = match process_zip_file upload now
            (mkWorld (ui w ++ main_prologue) (reads w)) with
    | (w1, inl e) => (w1, inl e)
    | (w1, inr None) => (w1, inr tt)
    | (w1, inr (Some (df, csv_string, filename))) =>
        (mkWorld (ui w1 ++ main_report df csv_string filename) (reads w1),
         inl (NameError "rename_dict"))
    end.
Proof.
  unfold main, mbind, M_bind, mret, M_ret, emit. simpl.
  unfold main_prologue. rewrite <- !app_assoc. simpl.
  destruct (process_zip_file upload now _) as [w1 [e | [[[df s] fn] | ]]];
    simpl; try reflexivity.
  unfold main_report. rewrite <- !app_assoc. reflexivity.
Qed.

(** X1: an upload that is not an archive makes [process_zip_file] raise
    [BadZipFile] before anything is shown or read, and [main] passes the
    exception on after the four events that precede the call. *)
Theorem invalid_archive_is_rejected upload now w :
  zip_open upload = None ->
  process_zip_file upload now w = (w, inl BadZipFile)
  /\ main (Some upload) true now w
     = (mkWorld (ui w ++ main_prologue) (reads w), inl BadZipFile).
Proof.
  intros Hopen.
  assert (Hrun : forall w0, process_zip_file upload now w0
                            = (w0, inl BadZipFile)).
  { intros w0. unfold process_zip_file, mbind, M_bind, lift_option, raise.
    now rewrite Hopen. }
  split; [apply Hrun|]. now rewrite main_run, Hrun.
Qed.



(** X4: whatever the upload, a call of [process_zip_file] only adds to
    the page and to the list of members read: at most three events and at
    most one member, and a member that is read is a name of the listing
    that passes the CSV filter. *)
Theorem process_reads_at_most_one_member upload now w :
  exists shown fetched,
    ui (process_zip_file upload now w).1 = ui w ++ shown
    /\ reads (process_zip_file upload now w).1 = reads w ++ fetched
    /\ length shown <= 3
    /\ length fetched <= 1
    /\ forall z f, zip_open upload = Some z -> f ∈ fetched ->
         f ∈ namelist z /\ is_csv f = true.
Proof.
  destruct (zip_open upload) as [z|] eqn:Hopen.
  - rewrite (process_zip_file_run _ _ _ z Hopen).
    destruct (csv_files (namelist z)) as [|csv_file others] eqn:Hcsv.
    + exists [st_error "No CSV files found in the ZIP archive"], [].
      simpl. rewrite app_nil_r. repeat split; try lia.
      all: intros; exfalso; eapply elem_of_nil; eassumption.
    + assert (Hin : csv_file ∈ namelist z /\ is_csv csv_file = true).
      { assert (H : csv_file ∈ csv_files (namelist z))
          by (rewrite Hcsv; apply list_elem_of_here).
        unfold csv_files in H. apply list_elem_of_filter in H. tauto. }
      assert (Hf : forall z' f, Some z = Some z' -> f ∈ [csv_file] ->
                     f ∈ namelist z' /\ is_csv f = true).
      { intros z' f [= <-] Hf. apply list_elem_of_singleton in Hf.
        now subst f. }
      destruct (zip_read z csv_file) as [content|];
        [destruct (pd_read_csv content) as [parsed|]|];
        eexists _, [csv_file]; simpl;
        (split; [reflexivity|]); (split; [reflexivity|]);
        (split; [simpl; lia|]); (split; [simpl; lia|]); exact Hf.
  - exists [], []. unfold process_zip_file, mbind, M_bind, lift_option, raise.
    rewrite Hopen. simpl. rewrite !app_nil_r.
    repeat split; try lia; discriminate.
Qed.


(** X6: without an upload [main] shows the title and the prompt and
    returns; with an upload but the button not pressed it adds the
    success note and returns.  In both cases the upload is not opened
    and nothing is read. *)
Theorem idle_main_does_not_process upload now w :
  main None true now w
  = (mkWorld
       (ui w ++ [ st_title "ZIP CSV Processor";
                  st_write
                    "Upload a ZIP file containing a CSV to process and rename the headers." ])
       (reads w), inr tt)
  /\ main None false now w = main None true now w
  /\ main (Some upload) false now w
     = (mkWorld
          (ui w ++ [ st_title "ZIP CSV Processor";
                     st_write
                       "Upload a ZIP file containing a CSV to process and rename the headers.";
                     st_success "File uploaded successfully!" ])
          (reads w), inr tt).
Proof.
  unfold main, mbind, M_bind, mret, M_ret, emit. simpl.
  rewrite <- !app_assoc. repeat split; reflexivity.
Qed.

End MoreRuns.

(** ** More on the header rewriter *)

Lemma dict_get_not_key (d : dict) k :
  k ∉ dict_keys d -> dict_get d k = None.
Proof.
  induction d as [|[k' v] d IH]; [reflexivity|]. simpl. intros Hk.
  destruct (String.eqb_spec k k') as [-> | Hne].
  - exfalso. apply Hk. apply list_elem_of_here.
  - apply IH. intros Hin. apply Hk. now apply list_elem_of_further.
Qed.

Lemma dict_values_elem (d : dict) k v : (k, v) ∈ d -> v ∈ dict_values d.
Proof.
  intros H. unfold dict_values. apply list_elem_of_In, in_map_iff.
  exists (k, v). split; [reflexivity | now apply list_elem_of_In].
Qed.

(** Two pairs of a dictionary with pairwise distinct values and the same
    value are the same pair. *)
Lemma dict_values_NoDup_inj (d : dict) a b t :
  NoDup (dict_values d) -> (a, t) ∈ d -> (b, t) ∈ d -> a = b.
Proof.
  induction d as [|[k v] d IH]; simpl; intros Hnd Ha Hb.
  - now apply elem_of_nil in Ha.
  - apply NoDup_cons in Hnd as [Hv Hnd].
    apply elem_of_cons in Ha as [Ha | Ha];
      apply elem_of_cons in Hb as [Hb | Hb]; simplify_eq.
    + reflexivity.
    + exfalso. apply Hv. exact (dict_values_elem _ _ _ Hb).
    + exfalso. apply Hv. exact (dict_values_elem _ _ _ Ha).
    + exact (IH Hnd Ha Hb).
Qed.

Lemma column_mapping_values_NoDup : NoDup (dict_values column_mapping).
Proof. apply (bool_decide_unpack _). vm_compute. exact I. Qed.

(** The keys of [rename_dict] are distinct labels of the frame. *)
Lemma rename_dict_keys (cols : list string) :
  NoDup (dict_keys (rename_dict cols))
  /\ forall k, k ∈ dict_keys (rename_dict cols) -> k ∈ cols.
Proof.
  unfold rename_dict. rewrite dict_keys_filter. split.
  - apply NoDup_filter, column_mapping_keys_NoDup.
  - intros k Hk. apply list_elem_of_filter in Hk. tauto.
Qed.

(** Renaming with the restricted dictionary and with the whole mapping
    agree on every label of the frame. *)
Lemma df_rename_rename_dict {cell} (df : DataFrame cell) :
  df_rename df (rename_dict (columns df)) = df_rename df column_mapping.
Proof.
  unfold df_rename, rename_dict. f_equal.
  apply map_ext_in. intros c Hc.
  rewrite dict_get_filter_keys; [reflexivity | now apply list_elem_of_In].
Qed.

(** X7: the test [old in df.columns] of line 69 has no effect on the
    renamed frame: renaming with the whole mapping gives the same frame.
    The test only decides what [rename_dict] counts. *)
Theorem rename_with_whole_mapping {cell} (df : DataFrame cell) :
  rename_headers df = df_rename df column_mapping.
Proof. apply df_rename_rename_dict. Qed.

(** X8: renaming keeps the labels pairwise distinct, provided they were
    distinct and none of them is already a target name of the mapping. *)
Theorem rename_keeps_labels_distinct {cell} (df : DataFrame cell) :
  NoDup (columns df) ->
  (forall c, c ∈ columns df -> c ∉ dict_values column_mapping) ->
  NoDup (columns (rename_headers df)).
Proof.
  intros Hnd Hfresh. rewrite rename_headers_columns.
  change (map ?f ?l) with (f <$> l).
  apply NoDup_fmap_2_strong; [|exact Hnd].
  intros a b Ha Hb Heq.
  destruct (dict_get column_mapping a) as [ta|] eqn:Ea;
    destruct (dict_get column_mapping b) as [tb|] eqn:Eb; simpl in Heq.
  - subst tb. apply dict_get_Some in Ea, Eb.
    exact (dict_values_NoDup_inj _ _ _ _ column_mapping_values_NoDup Ea Eb).
  - subst b. apply dict_get_Some, dict_values_elem in Ea.
    now apply Hfresh in Hb.
  - subst a. apply dict_get_Some, dict_values_elem in Eb.
    now apply Hfresh in Ha.
  - exact Heq.
Qed.

(** Without the second condition the labels can collide: [Sent] is
    renamed to a label that is already there. *)
Example rename_can_collide :
  columns (rename_headers (mkDataFrame ["Sent"; "Msg_Sent"] [[1; 2]]))
  = ["Msg_Sent"; "Msg_Sent"].
Proof. vm_compute. reflexivity. Qed.

(** X9: a frame none of whose labels is a key of the mapping passes
    through unchanged, and nothing is counted as renamed. *)
Theorem unknown_headers_pass_through {cell} (df : DataFrame cell) :
  (forall c, c ∈ columns df -> c ∉ dict_keys column_mapping) ->
  rename_dict (columns df) = [] /\ rename_headers df = df.
Proof.
  intros Hunknown. split.
  - unfold rename_dict.
    destruct (filter (fun kv => kv.1 ∈ columns df) column_mapping)
      as [|[k v] rest] eqn:E; [reflexivity | exfalso].
    assert (Hin : (k, v) ∈ filter (fun kv => kv.1 ∈ columns df) column_mapping)
      by (rewrite E; apply list_elem_of_here).
    apply list_elem_of_filter in Hin as [Hk Hkv]. simpl in Hk.
    apply (Hunknown k Hk). unfold dict_keys.
    apply list_elem_of_In, in_map_iff. exists (k, v).
    split; [reflexivity | now apply list_elem_of_In].
  - unfold rename_headers. rewrite df_rename_rename_dict.
    destruct df as [cols rows]. unfold df_rename.
    cbn [columns data] in *. f_equal.
    rewrite <- (map_id cols) at 2. apply map_ext_in. intros c Hc.
    assert (Hc' : dict_get column_mapping c = None).
    { apply dict_get_not_key, Hunknown. now apply list_elem_of_In. }
    now rewrite Hc'.
Qed.

(** X10: the count of renamed headers is at most nine and at most the
    number of columns of the frame. *)
Theorem renamed_count_bounds (cols : list string) :
  length (rename_dict cols) <= 9 /\ length (rename_dict cols) <= length cols.
Proof.
  split.
  - unfold rename_dict.
    exact (length_filter (fun kv => kv.1 ∈ cols) column_mapping).
  - destruct (rename_dict_keys cols) as [Hnd Hsub].
    rewrite <- (length_map fst). fold (dict_keys (rename_dict cols)).
    apply submseteq_length, NoDup_submseteq; assumption.
Qed.

(** ** More on the selection *)

Lemma string_app_assoc (a b c : string) :
  (a +:+ b) +:+ c = a +:+ (b +:+ c).
Proof.
  induction a as [|x a IH]; [reflexivity|].
  change (String x ((a +:+ b) +:+ c) = String x (a +:+ (b +:+ c))).
  f_equal. exact IH.
Qed.

Lemma csv_suffix_length x : x ∈ csv_suffixes -> String.length x = 4.
Proof.
  unfold csv_suffixes. intros H.
  repeat (apply elem_of_cons in H as [-> | H]; [reflexivity|]).
  now apply elem_of_nil in H.
Qed.

(** X11: whether a name passes the filter depends on its end only: what
    stands before a part of four characters or more, such as the folders
    of a path, does not matter. *)
Theorem is_csv_ignores_prefix (folder name : string) :
  4 <= String.length name -> is_csv (folder +:+ name) = is_csv name.
Proof.
  intros Hlen.
  destruct (is_csv name) eqn:Hname.
  - apply is_csv_spec in Hname as (p & x & Hx & ->).
    apply is_csv_spec. exists (folder +:+ p), x.
    split; [exact Hx | symmetry; apply string_app_assoc].
  - destruct (is_csv (folder +:+ name)) eqn:Hfull; [|reflexivity].
    apply is_csv_spec in Hfull as (q & x & Hx & Heq).
    pose proof (csv_suffix_length _ Hx) as Hx4.
    pose proof (substring_split name (String.length name - 4) 4
                  ltac:(lia)) as Hsplit.
    set (n1 := substring 0 (String.length name - 4) name) in *.
    set (n2 := substring (String.length name - 4) 4 name) in *.
    assert (Hn2 : String.length n2 = 4).
    { pose proof (f_equal String.length Hsplit) as Hl.
      rewrite string_app_length in Hl.
      assert (String.length n1 = String.length name - 4)
        by (subst n1; apply length_substring_prefix; lia).
      lia. }
    rewrite Hsplit, <- string_app_assoc in Heq.
    apply app_length_inj in Heq as [_ Heq].
    + assert (Htrue : is_csv name = true).
      { apply is_csv_spec. exists n1, x. split; [exact Hx|].
        now rewrite Hsplit, Heq. }
      congruence.
    + pose proof (f_equal String.length Heq) as Hl.
      rewrite !string_app_length in Hl. rewrite string_app_length. lia.
Qed.

(** X12: once a listing has a CSV member, members added after it do not
    change the choice: the kept names of the longer listing start with
    the kept names of the shorter one. *)
Theorem later_members_do_not_change_the_choice
    (file_list more : list string) csv_file others :
  csv_files file_list = csv_file :: others ->
  csv_files (file_list ++ more) = csv_file :: others ++ csv_files more.
Proof.
  intros H. unfold csv_files in *. now rewrite filter_app, H.
Qed.

(** ** More on the produced strings *)

Lemma two_digits_read_back (n : N) :
  (n <= 99)%N -> N_of_digits (two_digits n) = n.
Proof.
  intros Hn.
  assert (Hall : forallb (fun n => N.eqb (N_of_digits (two_digits n)) n)
                   (map N.of_nat (seq 0 100)) = true)
    by (vm_compute; reflexivity).
  rewrite forallb_forall in Hall. apply N.eqb_eq, Hall.
  apply N_below_in_range; simpl; lia.
Qed.

Lemma four_digits_read_back (n : N) :
  (1000 <= n <= 9999)%N -> N_of_digits (four_digits n) = n.
Proof.
  intros Hn.
  assert (Hall : forallb (fun n => N.eqb (N_of_digits (four_digits n)) n)
                   (map N.of_nat (seq 1000 (9 * 1000))) = true)
    by (vm_compute; reflexivity).
  rewrite forallb_forall in Hall. apply N.eqb_eq, Hall.
  apply N_below_in_range; lia.
Qed.

(** X13: the file name determines the time of the run to the second: two
    valid times with the same file name are the same time.  Runs in
    different seconds get different names, and only those. *)
Theorem output_filename_injective (t1 t2 : datetime) :
  valid_datetime t1 -> valid_datetime t2 ->
  output_filename t1 = output_filename t2 -> t1 = t2.
Proof.
  intros H1 H2 Heq.
  rewrite (output_filename_spec t1 H1), (output_filename_spec t2 H2) in Heq.
  destruct H1 as (Hy1 & Hm1 & Hd1 & HH1 & HM1 & HS1).
  destruct H2 as (Hy2 & Hm2 & Hd2 & HH2 & HM2 & HS2).
  destruct t1 as [y1 m1 d1 h1 mi1 s1], t2 as [y2 m2 d2 h2 mi2 s2].
  cbn [year month day hour minute second] in *.
  unfold filename_spec in Heq.
  cbn [year month day hour minute second] in Heq.
  assert (Hparts :
    four_digits y1 = four_digits y2 /\ two_digits m1 = two_digits m2
    /\ two_digits d1 = two_digits d2 /\ two_digits h1 = two_digits h2
    /\ two_digits mi1 = two_digits mi2 /\ two_digits s1 = two_digits s2).
  { unfold four_digits, two_digits in *. simpl in Heq.
    injection Heq as ? ? ? ? ? ? ? ? ? ? ? ? ? ?.
    repeat split; congruence. }
  destruct Hparts as (Ey & Em & Ed & Eh & Emi & Es).
  apply (f_equal N_of_digits) in Ey, Em, Ed, Eh, Emi, Es.
  rewrite !four_digits_read_back in Ey by assumption.
  rewrite !two_digits_read_back in Em, Ed, Eh, Emi, Es by lia.
  now subst.
Qed.

(** The digits of a number hold no comma. *)
Lemma string_of_uint_no_comma (u : Decimal.uint) :
  List.filter (fun c => negb (Ascii.eqb c ","))
    (list_ascii_of_string (NilEmpty.string_of_uint u))
  = list_ascii_of_string (NilEmpty.string_of_uint u).
Proof. induction u; simpl; [reflexivity | now rewrite IHu ..]. Qed.

Lemma group3_only_adds_commas (digits : list ascii) : forall room,
  List.filter (fun c => negb (Ascii.eqb c ",")) (PyStr.group3 digits room)
  = List.filter (fun c => negb (Ascii.eqb c ",")) digits.
Proof.
  induction digits as [|d rest IH]; intros room; [reflexivity|].
  destruct room as [|room]; simpl; rewrite IH; reflexivity.
Qed.

(** X14: the grouped form of a count is its decimal form with commas put
    in: taking the commas out gives [str(n)] back, and below one thousand
    there is no comma at all. *)
Theorem format_thousands_only_adds_commas (n : N) :
  remove_commas (PyStr.format_thousands n) = PyStr.str_of_N n
  /\ ((n < 1000)%N -> PyStr.format_thousands n = PyStr.str_of_N n).
Proof.
  split.
  - unfold remove_commas, PyStr.format_thousands, PyStr.str_of_N.
    rewrite list_ascii_of_string_of_list_ascii, filter_rev,
      group3_only_adds_commas, <- filter_rev, rev_involutive,
      string_of_uint_no_comma.
    apply string_of_list_ascii_of_string.
  - intros Hn.
    assert (Hall : forallb (fun n => String.eqb (PyStr.format_thousands n)
                                       (PyStr.str_of_N n))
                     (map N.of_nat (seq 0 1000)) = true)
      by (vm_compute; reflexivity).
    rewrite forallb_forall in Hall. apply String.eqb_eq, Hall.
    apply N_below_in_range; simpl; lia.
Qed.

Lemma split_dquote_free (s : string) :
  no_dquote s -> split_dquote s = [s].
Proof.
  unfold no_dquote. induction s as [|c s IH]; simpl; [reflexivity|].
  intros H. apply Forall_cons in H as [Hc Hs].
  destruct (Ascii.eqb_spec c "034"); [contradiction|].
  now rewrite (IH Hs).
Qed.

Lemma split_dquote_app (a rest : string) :
  no_dquote a ->
  split_dquote (a +:+ dquote +:+ rest) = a :: split_dquote rest.
Proof.
  unfold no_dquote. induction a as [|c a IH]; simpl; [reflexivity|].
  intros H. apply Forall_cons in H as [Hc Ha].
  destruct (Ascii.eqb_spec c "034"); [contradiction|].
  now rewrite (IH Ha).
Qed.

(** The digits of the alphabet and the filling character are not the
    double quote. *)
Lemma b64_digit_not_dquote (i : N) : b64_digit i <> "034"%char.
Proof.
  unfold b64_digit, b64_alphabet.
  generalize (N.to_nat i). intros k.
  do 64 (destruct k as [|k]; [discriminate|]). discriminate.
Qed.

Lemma b64_groups_no_dquote (bs : list N) :
  Forall (fun c => c <> "034"%char) (b64_groups bs).
Proof.
  assert (H : forall n bs, length bs <= n ->
                Forall (fun c => c <> "034"%char) (b64_groups bs)).
  { clear bs. induction n as [|n IH]; intros bs Hlen.
    - destruct bs; [constructor | simpl in Hlen; lia].
    - destruct bs as [|a [|b [|c rest]]]; simpl.
      + constructor.
      + repeat (constructor;
                [first [apply b64_digit_not_dquote | discriminate]|]).
        constructor.
      + repeat (constructor;
                [first [apply b64_digit_not_dquote | discriminate]|]).
        constructor.
      + do 4 (constructor; [apply b64_digit_not_dquote|]).
        apply IH. simpl in Hlen. lia. }
  exact (H (length bs) bs (le_n _)).
Qed.

Lemma b64encode_text (b : list byte) :
  string_of_list_byte (b64encode b)
  = string_of_list_ascii (b64_groups (map Byte.to_N b)).
Proof.
  unfold string_of_list_byte, b64encode. f_equal.
  rewrite map_map. rewrite <- (map_id (b64_groups _)) at 2.
  apply map_ext. intros c. apply ascii_of_byte_of_ascii.
Qed.

Lemma b64encode_no_dquote (b : list byte) :
  no_dquote (string_of_list_byte (b64encode b)).
Proof.
  unfold no_dquote.
  rewrite b64encode_text, list_ascii_of_string_of_list_ascii.
  apply b64_groups_no_dquote.
Qed.

(** What the link is made of, for a file name without a double quote. *)
Lemma split_download_link (csv_string filename : string) :
  no_dquote filename ->
  split_dquote (get_download_link csv_string filename)
  = [ "<a href=";
      "data:file/csv;base64,"
        +:+ string_of_list_byte (b64encode (utf8_encode csv_string));
      " download=";
      filename;
      ">Download Processed CSV</a>" ].
Proof.
  intros Hname. unfold get_download_link.
  pose proof (b64encode_no_dquote (utf8_encode csv_string)) as Hb64.
  set (b64 := string_of_list_byte _) in *.
  assert (Hurl : no_dquote ("data:file/csv;base64," +:+ b64)).
  { unfold no_dquote in *. simpl.
    repeat (constructor; [discriminate|]). exact Hb64. }
  rewrite (split_dquote_app "<a href=") by (repeat constructor; discriminate).
  rewrite <- (string_app_assoc "data:file/csv;base64," b64).
  rewrite (split_dquote_app _ _ Hurl).
  rewrite (split_dquote_app " download=")
    by (repeat constructor; discriminate).
  rewrite (split_dquote_app _ _ Hname).
  rewrite split_dquote_free by (repeat constructor; discriminate).
  reflexivity.
Qed.

(** The text is encoded as UTF-8 before the base64 step: a character
    above 127 is two bytes, as in [w6k=] for the letter e with an acute
    accent (code point 233). *)
Example b64_of_utf8_examples :
  string_of_list_byte (b64encode (utf8_encode (String "233" EmptyString)))
  = "w6k="
  /\ string_of_list_byte (b64encode (utf8_encode "a,b")) = "YSxi"
  /\ string_of_list_byte (b64encode (utf8_encode "ab")) = "YWI="
  /\ string_of_list_byte (b64encode (utf8_encode "")) = "".
Proof. repeat split; reflexivity. Qed.

(** X15: for every text and every file name without a double quote the
    link is well formed: cut at the double quotes it has five pieces, the
    second being the data URL with the base64 digits of the UTF-8 bytes
    of the text, the fourth the file name, unchanged. *)
Theorem download_link_attributes (csv_string filename : string) :
  no_dquote filename ->
  split_dquote (get_download_link csv_string filename)
  = [ "<a href=";
      "data:file/csv;base64,"
        +:+ string_of_list_byte (b64encode (utf8_encode csv_string));
      " download=";
      filename;
      ">Download Processed CSV</a>" ]
  /\ no_dquote (string_of_list_byte (b64encode (utf8_encode csv_string))).
Proof.
  intros Hname. split; [now apply split_download_link|].
  apply b64encode_no_dquote.
Qed.

Lemma digit_not_dquote (n : N) : digit n <> "034"%char.
Proof.
  unfold digit.
  assert (Hlt : (n mod 10 < 10)%N) by (apply N.mod_lt; discriminate).
  destruct (n mod 10)%N as [|p]; [discriminate|].
  do 4 (destruct p as [p|p|]; try discriminate; try lia).
Qed.

Lemma filename_spec_no_dquote (t : datetime) : no_dquote (filename_spec t).
Proof.
  unfold no_dquote, filename_spec, four_digits, two_digits. simpl.
  repeat (constructor; [first [apply digit_not_dquote | discriminate]|]).
  constructor.
Qed.

Section LinkOfRun.
Context {L : Library}.

(** X16: the name given to the download holds no double quote, so in the
    link that [main] builds from the result of a run the file name is the
    fourth piece between double quotes, and it is the time stamp name. *)
Theorem download_link_of_run_names_the_file
    upload now w w' df csv_string filename :
  valid_datetime now ->
  process_zip_file upload now w = (w', inr (Some (df, csv_string, filename))) ->
  no_dquote filename
  /\ split_dquote (get_download_link csv_string filename) !! 3
     = Some (output_filename now).
Proof.
  intros Hnow Hrun.
  assert (Hname : filename = output_filename now).
  { destruct (zip_open upload) as [z|] eqn:Hopen.
    - rewrite (process_zip_file_run _ _ _ z Hopen) in Hrun.
      destruct (csv_files (namelist z)) as [|csv_file others];
        [discriminate|].
      destruct (zip_read z csv_file) as [content|]; [|discriminate].
      destruct (pd_read_csv content) as [parsed|]; [|discriminate].
      simpl in Hrun. now injection Hrun as _ _ _ <-.
    - revert Hrun.
      unfold process_zip_file, mbind, M_bind, lift_option, raise.
      rewrite Hopen. discriminate. }
  assert (Hq : no_dquote filename).
  { rewrite Hname, (output_filename_spec now Hnow).
    apply filename_spec_no_dquote. }
  split; [exact Hq|].
  rewrite (split_download_link _ _ Hq). simpl. now rewrite Hname.
Qed.

End LinkOfRun.

(** ** The further properties at sample inputs *)

Lemma invalid_archive_is_rejected_sample :
  process_zip_file (L := sample_library) [] sample_now empty_world
  = (empty_world, inl BadZipFile)
  /\ main (L := sample_library) (Some []) true sample_now empty_world
     = (mkWorld main_prologue [], inl BadZipFile).
Proof.
  exact (invalid_archive_is_rejected (L := sample_library)
           [] sample_now empty_world eq_refl).
Defined.




Lemma rename_keeps_labels_distinct_sample :
  NoDup (columns (rename_headers sample_frame)).
Proof.
  apply rename_keeps_labels_distinct.
  - apply (bool_decide_unpack _). vm_compute. exact I.
  - intros c Hc Hv. simpl in Hc.
    repeat (apply elem_of_cons in Hc as [-> | Hc];
            [revert Hv; apply (bool_decide_unpack _); vm_compute; exact I|]).
    now apply elem_of_nil in Hc.
Defined.

Lemma unknown_headers_pass_through_sample :
  rename_dict ["Foo"; "campaign id"] = []
  /\ rename_headers (mkDataFrame ["Foo"; "campaign id"] [[1; 2]])
     = mkDataFrame ["Foo"; "campaign id"] [[1; 2]].
Proof.
  apply (unknown_headers_pass_through
           (mkDataFrame ["Foo"; "campaign id"] [[1; 2]])).
  intros c Hc Hk. simpl in Hc.
  repeat (apply elem_of_cons in Hc as [-> | Hc];
          [revert Hk; apply (bool_decide_unpack _); vm_compute; exact I|]).
  now apply elem_of_nil in Hc.
Defined.

Lemma is_csv_ignores_prefix_sample :
  is_csv ("exports/2024/" +:+ "Report.CSV") = is_csv "Report.CSV".
Proof. apply is_csv_ignores_prefix. simpl. lia. Defined.

Lemma later_members_do_not_change_the_choice_sample :
  csv_files (["readme.txt"; "a.csv"] ++ ["b.csv"; "c.txt"])
  = "a.csv" :: [] ++ csv_files ["b.csv"; "c.txt"].
Proof.
  exact (later_members_do_not_change_the_choice
           ["readme.txt"; "a.csv"] ["b.csv"; "c.txt"] "a.csv" [] eq_refl).
Defined.

Lemma sample_now_valid : valid_datetime sample_now.
Proof. unfold valid_datetime, sample_now. simpl. lia. Qed.

Lemma output_filename_injective_sample :
  sample_now = mkDatetime 2024 3 7 9 5 0.
Proof.
  apply output_filename_injective.
  - exact sample_now_valid.
  - exact sample_now_valid.
  - reflexivity.
Defined.

Lemma download_link_attributes_sample :
  split_dquote
    (get_download_link (String "233" ",b") "processed_x.csv")
  = [ "<a href="; "data:file/csv;base64,w6ksYg=="; " download=";
      "processed_x.csv"; ">Download Processed CSV</a>" ]
  /\ no_dquote "w6ksYg==".
Proof.
  apply (download_link_attributes (String "233" ",b") "processed_x.csv").
  unfold no_dquote. simpl. repeat constructor; discriminate.
Defined.

Lemma download_link_of_run_names_the_file_sample :
  no_dquote "processed_20240307_090500.csv"
  /\ split_dquote
       (get_download_link "Campaign__Campaign_Id,Foo,Msg_Sent"
          "processed_20240307_090500.csv") !! 3
     = Some (output_filename sample_now).
Proof.
  apply (download_link_of_run_names_the_file (L := sample_library)
           [x01] sample_now empty_world
           (process_zip_file (L := sample_library) [x01] sample_now
              empty_world).1
           (rename_headers (cell := @cell sample_library) sample_frame)
           "Campaign__Campaign_Id,Foo,Msg_Sent"
           "processed_20240307_090500.csv").
  - exact sample_now_valid.
  - reflexivity.
Defined.

(** ** What the count of renamed headers counts *)

Lemma length_filter_elem_of (l k : list string) :
  NoDup l ->
  length (filter (fun x => x ∈ k) l)
  = size ((list_to_set k : gset string) ∩ list_to_set l).
Proof.
  intros Hnd.
  rewrite <- (size_list_to_set (C := gset string))
    by now apply NoDup_filter.
  f_equal. apply set_eq. intros x.
  rewrite elem_of_list_to_set, list_elem_of_filter, elem_of_intersection,
    !elem_of_list_to_set. reflexivity.
Qed.

(** A label is changed by the renaming exactly when it is a key. *)
Lemma label_changes_iff_key (c : string) :
  default c (dict_get column_mapping c) <> c <-> c ∈ dict_keys column_mapping.
Proof.
  split.
  - intros Hne.
    destruct (decide (c ∈ dict_keys column_mapping)) as [Hin | Hout];
      [exact Hin | exfalso].
    apply Hne. now rewrite (dict_get_not_key _ _ Hout).
  - intros Hkey Heq.
    destruct (dict_get column_mapping c) as [t|] eqn:E.
    + simpl in Heq. subst t. apply dict_get_Some in E.
      pose proof (column_mapping_targets_fresh _ _ E) as Hfresh.
      apply (dict_get_None _ _ Hfresh c E).
    + unfold dict_keys in Hkey. apply list_elem_of_In, in_map_iff in Hkey.
      destruct Hkey as [[k v] [Hk Hin]]. simpl in Hk. subst k.
      exact (dict_get_None _ _ E v (proj2 (list_elem_of_In _ _) Hin)).
Qed.

(** X17: for a frame with pairwise distinct labels the count of renamed
    headers is the number of columns whose label the renaming changes. *)
Theorem renamed_count_is_number_of_changed_labels
    {cell} (df : DataFrame cell) :
  NoDup (columns df) ->
  length (rename_dict (columns df))
  = length (filter (fun c => default c (dict_get column_mapping c) <> c)
              (columns df)).
Proof.
  intros Hnd.
  rewrite <- (length_map fst). fold (dict_keys (rename_dict (columns df))).
  unfold rename_dict. rewrite dict_keys_filter.
  rewrite (length_filter_elem_of _ _ column_mapping_keys_NoDup).
  rewrite (list_filter_iff _ (fun c => c ∈ dict_keys column_mapping))
    by (intros c; apply label_changes_iff_key).
  rewrite (length_filter_elem_of _ _ Hnd).
  f_equal. apply set_eq. intros x. rewrite !elem_of_intersection. tauto.
Qed.

Lemma renamed_count_is_number_of_changed_labels_sample :
  length (rename_dict (columns sample_frame))
  = length (filter (fun c => default c (dict_get column_mapping c) <> c)
              (columns sample_frame)).
Proof.
  apply renamed_count_is_number_of_changed_labels.
  apply (bool_decide_unpack _). vm_compute. exact I.
Defined.

(** ** The round trip of the specified parser and serializer *)















(** Empty text comes back as an absent value in the same way. *)
Example empty_text_comes_back_absent :
  parseTable (serialize (mkDataFrame ["a"; "b"] [ [Text ""; Text "x"] ]))
  = Some (mkDataFrame ["a"; "b"] [ [Absent; Text "x"] ]).
Proof. reflexivity. Qed.


